(** * Chatterbox: the message API of [server/app.py] and [server/models.py]

    A shallow embedding of the Flask handlers [messages] and
    [message_by_id] and of the [Message] model, followed by the properties
    the specification states about them.

    What lies outside the two source files is kept explicit:
    - the wall clock: [datetime.now(timezone.utc)] is the next reading of a
      clock [clk : nat -> Z] (microseconds), indexed by the number of
      readings taken so far;
    - the database: [app.config] names SQLite.  Its integers are signed
      64-bit ([in_int64]), and its [ORDER BY created_at] is
      [sort_by_created_at]: the table scanned by ascending rowid, then
      sorted on the column with rows of equal [created_at] left in the
      order scanned.  The handlers are written over the engine's sort,
      [order_by], so that what does not depend on the order of ties is
      proved for every engine that sorts on the column;
    - the JSON payload: [request.get_json()] has already produced a Python
      value, or has aborted the request with an HTTP error. *)

From Stdlib Require Import ZArith String List Sorted Permutation Lia.
From stdpp Require Import base option list gmap strings sorting pretty.

Set Warnings "-register-all".
Local Open Scope string_scope.
Local Open Scope Z_scope.

(** ** Python values decoded from JSON *)

(** JSON numbers are kept as integers. [JNull] is Python's [None]. *)
Inductive json : Type :=
  | JNull
  | JBool (b : bool)
  | JNum (z : Z)
  | JStr (s : string)
  | JArr (l : list json)
  | JObj (d : gmap string json).

(** The exceptions the handlers can meet.  [DatabaseError] stands for the
    SQLAlchemy errors raised by a failing statement; [OverflowError] is
    what the SQLite driver raises on an integer it cannot hold;
    [HTTPException] is what [request.get_json()] raises on a payload it
    rejects. *)
Inductive exn : Type :=
  | ValueError (msg : string)
  | TypeError
  | AttributeError
  | KeyError
  | DatabaseError
  | OverflowError
  | HTTPException (code : Z).

(** The integers SQLite holds: signed, 64 bits. *)
Definition in_int64 (z : Z) : Prop :=
  -9223372036854775808 ≤ z ∧ z ≤ 9223372036854775807.

Global Instance in_int64_dec (z : Z) : Decision (in_int64 z).
Proof. unfold in_int64. apply _. Defined.

(** A Python computation without side effect: a value or a raised
    exception. *)
Inductive py (A : Type) : Type :=
  | Ok (a : A)
  | Raise (e : exn).
Arguments Ok {A} a.
Arguments Raise {A} e.

(** Truth value of a Python object, as tested by [not x] and [if x]. *)
Definition truthy (v : json) : bool :=
  match v with
  | JNull => false
  | JBool b => b
  | JNum z => negb (Z.eqb z 0)
  | JStr EmptyString => false
  | JStr (String _ _) => true
  | JArr [] => false
  | JArr (_ :: _) => true
  | JObj d => negb (Nat.eqb (size d) 0)
  end.

(** [needle in hay] on two Python strings: substring search. *)
Fixpoint str_contains (needle hay : string) : bool :=
  String.prefix needle hay ||
  match hay with
  | EmptyString => false
  | String _ rest => str_contains needle rest
  end.

Definition is_str (key : string) (v : json) : bool :=
  match v with
  | JStr s => String.eqb s key
  | _ => false
  end.

(** [key in data]: key membership on a dict, element membership on a
    list, substring search on a string, [TypeError] on anything else. *)
Definition py_in (key : string) (data : json) : py bool :=
  match data with
  | JObj d => Ok (bool_decide (is_Some (d !! key)))
  | JArr l => Ok (existsb (is_str key) l)
  | JStr s => Ok (str_contains key s)
  | JNull | JBool _ | JNum _ => Raise TypeError
  end.

(** [data.get(key)]: only a dict has the method. *)
Definition py_get (key : string) (data : json) : py json :=
  match data with
  | JObj d => Ok (default JNull (d !! key))
  | _ => Raise AttributeError
  end.

(** [data[key]] with a string key. *)
Definition py_getitem (key : string) (data : json) : py json :=
  match data with
  | JObj d => match d !! key with Some v => Ok v | None => Raise KeyError end
  | _ => Raise TypeError
  end.

(** ** The model ([models.py]) *)

(** A row of the table [messages].  The primary key [id] is the key under
    which the row is stored, see [world]. *)
Record Message : Type := mkMessage {
  body : string;
  username : string;
  created_at : Z;
  updated_at : Z
}.

(** [Message.validate_body], the [@validates('body')] hook run on every
    assignment to [body], the constructor's included. *)
Definition validate_body (b : json) : py json :=
  if truthy b then Ok b
  else Raise (ValueError "Message body cannot be empty.").

(** What the SQLite driver stores in a [String], [nullable=False] column:
    text as it is, a 64-bit number as its decimal text, a boolean as the
    integer it is; a number outside 64 bits is refused with
    [OverflowError], [None] breaks the NOT NULL constraint and a list or
    dict cannot be bound. *)
Definition bind_text (v : json) : py string :=
  match v with
  | JStr s => Ok s
  | JNum z => if decide (in_int64 z) then Ok (pretty z) else Raise OverflowError
  | JBool b => Ok (if b then "1" else "0")
  | JNull | JArr _ | JObj _ => Raise DatabaseError
  end.

(** ** The state the handlers act on *)

Record world : Type := mkWorld {
  table : gmap Z Message;   (* the table [messages], by primary key *)
  reads : nat               (* clock readings taken so far *)
}.

Definition init : world := mkWorld ∅ 0.

(** The rowid SQLite gives to a row inserted without one: one more than
    the largest in the table, 1 in an empty table. *)
Definition next_id (t : gmap Z Message) : Z :=
  map_fold (λ k _ acc, Z.max k acc) 0 t + 1.

(** Handler code: it reads and writes the world and may raise. *)
Definition M (A : Type) : Type := world → py A * world.

Definition ret {A} (a : A) : M A := λ w, (Ok a, w).

Definition raise {A} (e : exn) : M A := λ w, (Raise e, w).

Definition bind {A B} (c : M A) (k : A → M B) : M B :=
  λ w, match c w with
       | (Ok a, w') => k a w'
       | (Raise e, w') => (Raise e, w')
       end.

Definition lift {A} (r : py A) : M A := λ w, (r, w).

(** [try: c  except Exception as e: h e] *)
Definition try_except {A} (c : M A) (h : exn → M A) : M A :=
  λ w, match c w with
       | (Ok a, w') => (Ok a, w')
       | (Raise e, w') => h e w'
       end.

Declare Scope handler_scope.
Delimit Scope handler_scope with handler.
Notation "x <- c ;; k" := (bind c (λ x, k))
  (at level 20, c at level 99, k at level 200, only parsing) : handler_scope.
Local Open Scope handler_scope.

(** ** Requests and responses *)

Inductive http_method : Type := GET | POST | PATCH | DELETE.

Record request : Type := mkRequest {
  method : http_method;
  json_body : py json   (* what [request.get_json()] evaluates to *)
}.

(** The dictionary built by [message_to_dict]; a timestamp stands for its
    ISO-8601 rendering. *)
Record message_dict : Type := mkDict {
  j_id : Z;
  j_body : string;
  j_username : string;
  j_created_at : Z;
  j_updated_at : Z
}.

Inductive payload : Type :=
  | OneMessage (d : message_dict)
  | MessageList (l : list message_dict)
  | Errors (l : list string)          (* {'errors': [...]} *)
  | Error (s : string)                (* {'error': ...} *)
  | Empty.                            (* '' *)

Record response : Type := make_response {
  resp_body : payload;
  resp_status : Z
}.

(** The status the client sees: the handler's, the code of an HTTP
    exception, or 500 for any other exception that leaves the handler. *)
Definition status_of (r : py response) : Z :=
  match r with
  | Ok resp => resp_status resp
  | Raise (HTTPException code) => code
  | Raise _ => 500
  end.

Definition message_to_dict (i : Z) (m : Message) : message_dict :=
  mkDict i (body m) (username m) (created_at m) (updated_at m).

Definition row_to_dict (r : Z * Message) : message_dict :=
  message_to_dict r.1 r.2.

(** ** The handlers ([app.py]) *)

Section Handlers.

(** The n-th reading of [datetime.now(timezone.utc)]. *)
Variable clk : nat → Z.

(** The engine's [ORDER BY messages.created_at] over the rows it scans. *)
Variable order_by : list (Z * Message) → list (Z * Message).

Definition now : M Z :=
  λ w, (Ok (clk (reads w)), mkWorld (table w) (S (reads w))).

Definition get_json (req : request) : M json := lift (json_body req).

(** [db.session.get(Message, id)]: the row stored under the id, [None]
    when there is none.  The id is bound as a parameter of the SELECT, and
    the driver refuses one outside 64 bits with [OverflowError]; such an
    id is never a key of the table, whose rowids are 64-bit. *)
Definition session_get (i : Z) : M (option Message) :=
  λ w, match table w !! i with
       | Some m => (Ok (Some m), w)
       | None =>
           if decide (in_int64 i) then (Ok None, w)
           else (Raise OverflowError, w)
       end.

(** [db.session.add(new_message); db.session.commit()]: one INSERT.  The
    defaults of [created_at] and [updated_at] are two calls of
    [datetime.now], made in column order before the statement runs. *)
Definition insert_message (b u : json) : M (Z * Message) :=
  c <- now ;;
  up <- now ;;
  bs <- lift (bind_text b) ;;
  us <- lift (bind_text u) ;;
  λ w, let i := next_id (table w) in
       let m := mkMessage bs us c up in
       (Ok (i, m), mkWorld (<[i := m]> (table w)) (reads w)).

(** [message.body = v; db.session.add(message); db.session.commit()]
    with [v] already validated.  A value equal to the loaded one is no
    change, so no UPDATE is emitted and [onupdate] does not fire;
    otherwise one UPDATE sets [body] and the [onupdate] value of
    [updated_at]. *)
Definition update_body (i : Z) (m : Message) (v : json) : M Message :=
  match v with
  | JStr s =>
      if String.eqb s (body m) then ret m
      else up <- now ;;
           λ w, let m' := mkMessage s (username m) (created_at m) up in
                (Ok m', mkWorld (<[i := m']> (table w)) (reads w))
  | _ =>
      up <- now ;;
      bs <- lift (bind_text v) ;;
      λ w, let m' := mkMessage bs (username m) (created_at m) up in
           (Ok m', mkWorld (<[i := m']> (table w)) (reads w))
  end.

(** [db.session.delete(message); db.session.commit()] *)
Definition delete_message (i : Z) : M unit :=
  λ w, (Ok tt, mkWorld (delete i (table w)) (reads w)).

(** [Message.query.order_by(Message.created_at).all()] *)
Definition query_all : M (list (Z * Message)) :=
  λ w, (Ok (order_by (map_to_list (table w))), w).

(** [not data or 'body' not in data or 'username' not in data] *)
Definition missing_fields (data : json) : py bool :=
  if negb (truthy data) then Ok true
  else match py_in "body" data with
       | Raise e => Raise e
       | Ok false => Ok true
       | Ok true =>
           match py_in "username" data with
           | Raise e => Raise e
           | Ok hu => Ok (negb hu)
           end
       end.

(** The view function of [/messages]. *)
Definition messages (req : request) : M response :=
  match method req with
  | GET =>
      messages_list <- query_all ;;
      ret (make_response (MessageList (row_to_dict <$> messages_list)) 200)
  | POST =>
      data <- get_json req ;;
      missing <- lift (missing_fields data) ;;
      if (missing : bool) then
        ret (make_response
               (Errors ["Missing body or username in request data."]) 400)
      else
        try_except
          (b <- lift (py_get "body" data) ;;
           u <- lift (py_get "username" data) ;;
           b' <- lift (validate_body b) ;;
           new_message <- insert_message b' u ;;
           ret (make_response
                  (OneMessage (message_to_dict new_message.1 new_message.2))
                  201))
          (λ e, match e with
                | ValueError msg => ret (make_response (Errors [msg]) 400)
                | _ => ret (make_response
                              (Errors ["Could not process the message creation."])
                              500)
                end)
  | _ => raise TypeError   (* the function returns None *)
  end.

(** The view function of [/messages/<int:id>]. *)
Definition message_by_id (i : Z) (req : request) : M response :=
  message <- session_get i ;;
  match message with
  | None => ret (make_response (Error "Message not found") 404)
  | Some m =>
      match method req with
      | PATCH =>
          data <- get_json req ;;
          has_body <- lift (py_in "body" data) ;;
          if (has_body : bool) then
            try_except
              (v <- lift (py_getitem "body" data) ;;
               v' <- lift (validate_body v) ;;
               m' <- update_body i m v' ;;
               ret (make_response (OneMessage (message_to_dict i m')) 202))
              (λ e, match e with
                    | ValueError msg => ret (make_response (Errors [msg]) 400)
                    | _ => ret (make_response
                                  (Errors ["Could not update the message."]) 500)
                    end)
          else
            ret (make_response (Errors ["Missing body in update request."]) 400)
      | DELETE =>
          deleted <- delete_message i ;;
          ret (make_response Empty 204)
      | _ => raise TypeError   (* the function returns None *)
      end
  end.

(** Routing: the two [@app.route] rules with their [methods] lists; a
    method a rule does not list is answered 405 by the framework. *)
Inductive route : Type :=
  | Messages
  | MessageById (i : Z).

Definition handle (p : route) (req : request) : M response :=
  match p, method req with
  | Messages, (GET | POST) => messages req
  | MessageById i, (PATCH | DELETE) => message_by_id i req
  | _, _ => raise (HTTPException 405)
  end.

(** The worlds the service can be in: the empty database, then any
    requests. *)
Inductive reachable : world → Prop :=
  | reach_init : reachable init
  | reach_step (p : route) (req : request) (w : world) :
      reachable w → reachable (handle p req w).2.

End Handlers.

(** ** What the properties are stated with *)

(** The clock does not run backwards. *)
Definition monotone_clock (clk : nat → Z) : Prop :=
  ∀ a b : nat, (a ≤ b)%nat → clk a ≤ clk b.

Definition by_created_at (r1 r2 : Z * Message) : Prop :=
  created_at r1.2 ≤ created_at r2.2.

(** What SQL promises of [ORDER BY created_at]: the rows it was given,
    sorted on that column.  The order of rows that agree on the column is
    the engine's choice. *)
Definition order_by_ok (order_by : list (Z * Message) → list (Z * Message)) : Prop :=
  ∀ rows, order_by rows ≡ₚ rows ∧ StronglySorted by_created_at (order_by rows).

(** The order the specification describes: [created_at] ascending, rows
    with the same [created_at] by ascending [id]. *)
Definition by_created_at_then_id (d1 d2 : message_dict) : Prop :=
  j_created_at d1 < j_created_at d2 ∨
  (j_created_at d1 = j_created_at d2 ∧ j_id d1 ≤ j_id d2).

(** Every stored timestamp is a reading of the clock already taken, and
    [created_at] was read no later than [updated_at]. *)
Definition stamped (clk : nat → Z) (w : world) : Prop :=
  ∀ i m, table w !! i = Some m →
    ∃ a b : nat, (a ≤ b)%nat ∧ (b < reads w)%nat ∧
                 created_at m = clk a ∧ updated_at m = clk b.

(** The row a PATCH with text [s] leaves under [i], and the world. *)
Definition patched (clk : nat → Z) (i : Z) (m : Message) (s : string)
    (w : world) : Message * world :=
  if String.eqb s (body m) then (m, w)
  else
    let m' := mkMessage s (username m) (created_at m) (clk (reads w)) in
    (m', mkWorld (<[i := m']> (table w)) (S (reads w))).

Global Instance by_created_at_dec : RelDecision by_created_at.
Proof. intros r1 r2. unfold by_created_at. apply _. Defined.

(** SQLite's [ORDER BY created_at] on the table [messages], which has no
    index on the column: the rows are met by ascending rowid, and the
    sorter puts each row before the rows already sorted that do not come
    earlier, so rows with the same [created_at] stay in the order they
    were met. *)
Definition by_id (r1 r2 : Z * Message) : Prop := r1.1 ≤ r2.1.

Global Instance by_id_dec : RelDecision by_id.
Proof. intros r1 r2. unfold by_id. apply _. Defined.

Definition scan (rows : list (Z * Message)) : list (Z * Message) :=
  merge_sort by_id rows.

Fixpoint insert_row (r : Z * Message) (sorted : list (Z * Message))
    : list (Z * Message) :=
  match sorted with
  | [] => [r]
  | r' :: rest =>
      if decide (by_created_at r r') then r :: r' :: rest
      else r' :: insert_row r rest
  end.

Definition sort_by_created_at (rows : list (Z * Message)) : list (Z * Message) :=
  foldr insert_row [] (scan rows).

(** The same order on rows of the table as [by_created_at_then_id] on
    dictionaries. *)
Definition row_by_created_at_then_id (r1 r2 : Z * Message) : Prop :=
  created_at r1.2 < created_at r2.2 ∨
  (created_at r1.2 = created_at r2.2 ∧ r1.1 ≤ r2.1).

(** Two clocks: one that advances at every reading, one whose resolution
    is four readings. *)
Definition fine_clock (n : nat) : Z := Z.of_nat n.

Definition coarse_clock (n : nat) : Z := Z.of_nat (n / 4).

(** Sample requests. *)
Definition obj (fields : list (string * json)) : json :=
  JObj (list_to_map fields).

Definition post (data : json) : request := mkRequest POST (Ok data).

Definition patch (data : json) : request := mkRequest PATCH (Ok data).

Definition get_request : request := mkRequest GET (Raise (HTTPException 415)).

Definition delete_request : request := mkRequest DELETE (Raise (HTTPException 415)).

Definition hi_alice : json := obj [("body", JStr "hi"); ("username", JStr "alice")].

Definition empty_body : json := obj [("body", JStr ""); ("username", JStr "alice")].

Definition empty_username : json := obj [("body", JStr "hi"); ("username", JStr "")].

(** The world after [POST /messages] of [hi_alice] on the empty database. *)
Definition one_message (clk : nat → Z) : world :=
  (handle clk sort_by_created_at Messages (post hi_alice) init).2.

Definition two_messages (clk : nat → Z) : world :=
  (handle clk sort_by_created_at Messages (post hi_alice) (one_message clk)).2.

(** ** The rest of the model and what its properties are stated with *)

(** The double quote character of the format string below. *)
Definition dquote : string := String (Ascii.ascii_of_nat 34) EmptyString.

(** [Message.__repr__] of a stored message:
    [f'<Message {self.id}: "{self.body[:30]}..." by {self.username}>'].
    A character of the string stands for one code point. *)
Definition __repr__ (i : Z) (m : Message) : string :=
  "<Message " +:+ pretty i +:+ ": " +:+ dquote +:+
  substring 0 30 (body m) +:+ "..." +:+ dquote +:+
  " by " +:+ username m +:+ ">".

(** No stored record has an empty body. *)
Definition bodies_nonempty (w : world) : Prop :=
  ∀ i m, table w !! i = Some m → body m ≠ "".

(** More sample payloads. *)
Definition null_username : json := obj [("body", JStr "hi"); ("username", JNull)].

Definition null_body : json := obj [("body", JNull); ("username", JStr "alice")].

Definition hello : json := obj [("body", JStr "hello")].

(** * Properties *)

(** ** The clocks and the engines *)

Lemma fine_clock_monotone : monotone_clock fine_clock.
Proof. intros a b Hab. unfold fine_clock. lia. Qed.

Lemma coarse_clock_monotone : monotone_clock coarse_clock.
Proof.
  intros a b Hab. unfold coarse_clock.
  apply inj_le, Nat.Div0.div_le_mono, Hab.
Qed.

Lemma insert_row_Permutation (r : Z * Message) (l : list (Z * Message)) :
  insert_row r l ≡ₚ r :: l.
Proof.
  induction l as [|r' l IH]; simpl; [done|].
  case_decide; [done|]. rewrite IH. apply Permutation_swap.
Qed.

Lemma foldr_insert_row_Permutation (l : list (Z * Message)) :
  foldr insert_row [] l ≡ₚ l.
Proof.
  induction l as [|r l IH]; simpl; [done|].
  by rewrite insert_row_Permutation, IH.
Qed.

Lemma sort_by_created_at_Permutation (rows : list (Z * Message)) :
  sort_by_created_at rows ≡ₚ rows.
Proof.
  unfold sort_by_created_at, scan.
  by rewrite foldr_insert_row_Permutation, merge_sort_Permutation.
Qed.

Lemma insert_row_sorted (r : Z * Message) (l : list (Z * Message)) :
  StronglySorted by_created_at l →
  StronglySorted by_created_at (insert_row r l).
Proof.
  induction 1 as [|r' l Hl IH Hr']; simpl; [by repeat constructor|].
  case_decide as Hle.
  - constructor; [by constructor|]. constructor; [done|].
    eapply Forall_impl; [exact Hr'|]. unfold by_created_at in *. lia.
  - constructor; [done|]. rewrite insert_row_Permutation.
    constructor; [|done]. unfold by_created_at in *. lia.
Qed.

(** The sorter keeps the order of the scan among rows with the same
    [created_at]: a row that precedes all of a sorted list by id is put
    before those it ties with. *)
Lemma insert_row_sorted_then_id (r : Z * Message) (l : list (Z * Message)) :
  Forall (by_id r) l →
  StronglySorted row_by_created_at_then_id l →
  StronglySorted row_by_created_at_then_id (insert_row r l).
Proof.
  intros Hid Hs. induction Hs as [|r' l Hl IH Hr']; simpl;
    [by repeat constructor|].
  apply Forall_cons in Hid as [Hid' Hid]. case_decide as Hle.
  - constructor; [by constructor|].
    unfold by_created_at, by_id, row_by_created_at_then_id in *.
    constructor; [lia|].
    apply Forall_forall. intros y Hy.
    pose proof (proj1 (Forall_forall _ _) Hr' y Hy).
    pose proof (proj1 (Forall_forall _ _) Hid y Hy). simpl in *. lia.
  - constructor; [by apply IH|]. rewrite insert_row_Permutation.
    constructor; [|done].
    unfold by_created_at, row_by_created_at_then_id in *. lia.
Qed.

Lemma scan_sorted (rows : list (Z * Message)) :
  StronglySorted by_id (scan rows).
Proof.
  apply StronglySorted_merge_sort.
  - intros x y z. unfold by_id. lia.
  - intros x y. unfold by_id. lia.
Qed.

Lemma sort_by_created_at_then_id (rows : list (Z * Message)) :
  StronglySorted row_by_created_at_then_id (sort_by_created_at rows).
Proof.
  unfold sort_by_created_at.
  induction (scan_sorted rows) as [|r l Hl IH Hr]; simpl; [constructor|].
  apply insert_row_sorted_then_id; [|done].
  by rewrite foldr_insert_row_Permutation.
Qed.

Lemma sort_by_created_at_ok : order_by_ok sort_by_created_at.
Proof.
  intros rows. split; [apply sort_by_created_at_Permutation|].
  unfold sort_by_created_at. generalize (scan rows). intros l.
  induction l as [|r l IH]; simpl; [constructor|by apply insert_row_sorted].
Qed.

(** ** The table *)

Lemma next_id_above (t : gmap Z Message) (i : Z) :
  is_Some (t !! i) → i < next_id t.
Proof.
  unfold next_id.
  cut (∀ k, is_Some (t !! k) → k ≤ map_fold (λ k _ acc, Z.max k acc) 0 t).
  { intros H Hi. specialize (H i Hi). lia. }
  apply (map_fold_weak_ind
           (λ r (m : gmap Z Message), ∀ k, is_Some (m !! k) → k ≤ r)).
  - intros k [m Hm]. by rewrite lookup_empty in Hm.
  - intros j x m r Hj IH k Hk.
    destruct (decide (j = k)) as [->|Hne]; [lia|].
    rewrite lookup_insert_ne in Hk by done. specialize (IH k Hk). lia.
Qed.

(** An INSERT never lands on a row that is there. *)
Lemma next_id_fresh (t : gmap Z Message) : t !! next_id t = None.
Proof.
  destruct (t !! next_id t) as [m|] eqn:Hm; [|done].
  pose proof (next_id_above t (next_id t) (mk_is_Some _ _ Hm)). lia.
Qed.

Lemma truthy_obj_with_key (d : gmap string json) (k : string) (v : json) :
  d !! k = Some v → truthy (JObj d) = true.
Proof.
  intros Hk. simpl. apply negb_true_iff, Nat.eqb_neq.
  apply map_size_non_empty_iff. intros ->. by rewrite lookup_empty in Hk.
Qed.

Lemma truthy_nonempty_str (s : string) : s ≠ "" → truthy (JStr s) = true.
Proof. by destruct s. Qed.

(** ** POST /messages *)

Ltac run_handler :=
  unfold bind, try_except, get_json, session_get, lift, ret, raise; simpl.

Lemma py_in_obj_present (d : gmap string json) (k : string) (v : json) :
  d !! k = Some v → py_in k (JObj d) = Ok true.
Proof. intros Hk. simpl. by rewrite bool_decide_eq_true_2 by eauto. Qed.

Lemma py_in_obj_absent (d : gmap string json) (k : string) :
  d !! k = None → py_in k (JObj d) = Ok false.
Proof.
  intros Hk. simpl. rewrite bool_decide_eq_false_2; [done|].
  rewrite Hk. by intros [? ?].
Qed.

Lemma missing_fields_both_present (d : gmap string json) (b u : json) :
  d !! "body" = Some b → d !! "username" = Some u →
  missing_fields (JObj d) = Ok false.
Proof.
  intros Hb Hu. unfold missing_fields.
  rewrite (truthy_obj_with_key d _ _ Hb).
  by rewrite (py_in_obj_present d _ _ Hb), (py_in_obj_present d _ _ Hu).
Qed.

Lemma missing_fields_key_absent (d : gmap string json) :
  d !! "body" = None ∨ d !! "username" = None →
  missing_fields (JObj d) = Ok true.
Proof.
  intros Habs. unfold missing_fields.
  destruct (truthy (JObj d)); [|done]. cbn [negb].
  destruct (d !! "body") as [b|] eqn:Hb.
  - rewrite (py_in_obj_present d _ _ Hb).
    destruct Habs as [?|Hu]; [done|]. by rewrite (py_in_obj_absent d _ Hu).
  - by rewrite (py_in_obj_absent d _ Hb).
Qed.

(** A payload with text for both fields and a non-empty body: one INSERT,
    stamped with the next two readings of the clock. *)
Lemma messages_post_text clk order_by (w : world) (req : request)
    (d : gmap string json) (b u : string) :
  method req = POST →
  json_body req = Ok (JObj d) →
  d !! "body" = Some (JStr b) →
  d !! "username" = Some (JStr u) →
  b ≠ "" →
  let i := next_id (table w) in
  let m := mkMessage b u (clk (reads w)) (clk (S (reads w))) in
  messages clk order_by req w =
    (Ok (make_response (OneMessage (message_to_dict i m)) 201),
     mkWorld (<[i := m]> (table w)) (S (S (reads w)))).
Proof.
  intros Hm Hj Hb Hu Hne. unfold messages. rewrite Hm. run_handler.
  rewrite Hj, (missing_fields_both_present d _ _ Hb Hu). simpl.
  rewrite Hb, Hu. simpl. unfold validate_body.
  rewrite (truthy_nonempty_str b Hne). reflexivity.
Qed.

(** A payload that is [None], or a dict without one of the two keys. *)
Lemma messages_post_missing clk order_by (w : world) (req : request) (data : json) :
  method req = POST →
  json_body req = Ok data →
  missing_fields data = Ok true →
  messages clk order_by req w =
    (Ok (make_response (Errors ["Missing body or username in request data."]) 400),
     w).
Proof.
  intros Hm Hj Hmiss. unfold messages. rewrite Hm. run_handler.
  by rewrite Hj, Hmiss.
Qed.

(** A dict with both keys whose body is falsy: the validation hook raises
    before anything reaches the session. *)
Lemma messages_post_empty_body clk order_by (w : world) (req : request)
    (d : gmap string json) (b u : json) :
  method req = POST →
  json_body req = Ok (JObj d) →
  d !! "body" = Some b →
  d !! "username" = Some u →
  truthy b = false →
  messages clk order_by req w =
    (Ok (make_response (Errors ["Message body cannot be empty."]) 400), w).
Proof.
  intros Hm Hj Hb Hu Hfalsy. unfold messages. rewrite Hm. run_handler.
  rewrite Hj, (missing_fields_both_present d _ _ Hb Hu). simpl.
  rewrite Hb, Hu. simpl. unfold validate_body. by rewrite Hfalsy.
Qed.

(** C1, as the specification states it, fails: [created_at] and
    [updated_at] are two column defaults, each its own call of
    [datetime.now].  With a clock that advances between the two calls the
    record answered with 201 carries two different timestamps. *)
Lemma post_timestamps_differ :
  monotone_clock fine_clock ∧
  ∃ d : message_dict,
    (messages fine_clock sort_by_created_at (post hi_alice) init).1
      = Ok (make_response (OneMessage d) 201) ∧
    j_created_at d ≠ j_updated_at d.
Proof.
  split; [exact fine_clock_monotone|].
  exists (mkDict 1 "hi" "alice" 0 1). split.
  - reflexivity.
  - simpl. lia.
Qed.

(** C1 (amended): for every POST /messages whose payload carries a text
    [username] and a non-empty text [body], the response is 201 with the
    record that was stored under a new id; its [created_at] and
    [updated_at] are the next two readings of the clock, [created_at]
    first, so that [created_at <= updated_at] when the clock does not run
    backwards. *)
Theorem post_created_at_le_updated_at clk order_by (w : world) (req : request)
    (d : gmap string json) (b u : string) :
  monotone_clock clk →
  method req = POST →
  json_body req = Ok (JObj d) →
  d !! "body" = Some (JStr b) →
  d !! "username" = Some (JStr u) →
  b ≠ "" →
  ∃ (i : Z) (m : Message) (w' : world),
    messages clk order_by req w =
      (Ok (make_response (OneMessage (message_to_dict i m)) 201), w') ∧
    table w !! i = None ∧
    table w' !! i = Some m ∧
    created_at m = clk (reads w) ∧
    updated_at m = clk (S (reads w)) ∧
    created_at m ≤ updated_at m.
Proof.
  intros Hclk Hm Hj Hb Hu Hne.
  eexists _, _, _. split; [by apply (messages_post_text _ _ _ _ d b u)|].
  cbn [table created_at updated_at].
  split; [apply next_id_fresh|].
  split; [apply lookup_insert_eq|].
  repeat split. apply Hclk. lia.
Qed.

Lemma post_created_at_le_updated_at_witness :
  ∃ (i : Z) (m : Message) (w' : world),
    messages fine_clock sort_by_created_at (post hi_alice) init =
      (Ok (make_response (OneMessage (message_to_dict i m)) 201), w') ∧
    table init !! i = None ∧
    table w' !! i = Some m ∧
    created_at m = fine_clock (reads init) ∧
    updated_at m = fine_clock (S (reads init)) ∧
    created_at m ≤ updated_at m.
Proof.
  apply (post_created_at_le_updated_at fine_clock sort_by_created_at init
           (post hi_alice)
           (list_to_map [("body", JStr "hi"); ("username", JStr "alice")])
           "hi" "alice").
  - exact fine_clock_monotone.
  - reflexivity.
  - reflexivity.
  - reflexivity.
  - reflexivity.
  - discriminate.
Defined.

(** C4, as the specification states it, fails on payloads that are no
    JSON object.  The number 7 has no key [body]: ['body' not in data]
    raises [TypeError] outside the [try] and the client sees 500.  And
    when there is no payload for [request.get_json()] to parse, the
    request is aborted with the framework's own status (415 for a request
    without a JSON content type) before the handler tests anything. *)
Lemma post_without_keys_is_not_always_400 :
  messages fine_clock sort_by_created_at (post (JNum 7)) init
    = (Raise TypeError, init) ∧
  status_of (messages fine_clock sort_by_created_at (post (JNum 7)) init).1
    = 500 ∧
  status_of (messages fine_clock sort_by_created_at
               (mkRequest POST (Raise (HTTPException 415))) init).1
    = 415.
Proof. repeat split. Qed.

(** C4 (amended): a POST /messages whose payload is [None] (JSON null), or
    a JSON object without the key [body], without the key [username], or
    with the empty string as [body], is answered 400 and leaves the world
    as it was, so the number of stored records is unchanged. *)
Theorem post_incomplete_is_400 clk order_by (w : world) (req : request)
    (data : json) :
  method req = POST →
  json_body req = Ok data →
  (data = JNull ∨
   ∃ d, data = JObj d ∧
        (d !! "body" = None ∨ d !! "username" = None ∨
         d !! "body" = Some (JStr ""))) →
  status_of (messages clk order_by req w).1 = 400 ∧
  (messages clk order_by req w).2 = w ∧
  size (table (messages clk order_by req w).2) = size (table w).
Proof.
  intros Hm Hj Hdata.
  assert (∃ r, messages clk order_by req w = (Ok r, w) ∧ resp_status r = 400)
    as (r & -> & Hr); [|done].
  destruct Hdata as [->|(d & -> & Hd)].
  - eexists. split; [by apply (messages_post_missing _ _ _ _ JNull)|done].
  - assert (d !! "body" = None ∨ d !! "username" = None →
            messages clk order_by req w =
              (Ok (make_response
                     (Errors ["Missing body or username in request data."]) 400),
               w)) as Hmissing.
    { intros Habs. apply (messages_post_missing _ _ _ _ (JObj d)); [done..|].
      by apply missing_fields_key_absent. }
    destruct (d !! "username") as [u|] eqn:Hu.
    + destruct Hd as [Hb|[?|Hb]]; [|done|].
      * eexists. split; [apply Hmissing; by left|reflexivity].
      * eexists. split;
          [by apply (messages_post_empty_body _ _ _ _ d (JStr "") u)|reflexivity].
    + eexists. split; [apply Hmissing; by right|reflexivity].
Qed.

Lemma post_incomplete_is_400_witness :
  status_of (messages fine_clock sort_by_created_at (post empty_body)
               (one_message fine_clock)).1 = 400 ∧
  (messages fine_clock sort_by_created_at (post empty_body)
     (one_message fine_clock)).2 = one_message fine_clock ∧
  size (table (messages fine_clock sort_by_created_at (post empty_body)
                 (one_message fine_clock)).2)
    = size (table (one_message fine_clock)).
Proof.
  apply (post_incomplete_is_400 fine_clock sort_by_created_at
           (one_message fine_clock) (post empty_body) empty_body).
  - reflexivity.
  - reflexivity.
  - right.
    exists (list_to_map [("body", JStr ""); ("username", JStr "alice")]).
    split; [reflexivity|]. right. right. reflexivity.
Defined.

(** C10: a POST /messages whose payload has the empty string as
    [username] and a non-empty text [body] is answered 201 and stores a
    record whose [username] is the empty string: only the absence of the
    key is rejected. *)
Theorem post_accepts_empty_username clk order_by (w : world) (req : request)
    (d : gmap string json) (b : string) :
  method req = POST →
  json_body req = Ok (JObj d) →
  d !! "body" = Some (JStr b) →
  b ≠ "" →
  d !! "username" = Some (JStr "") →
  ∃ (i : Z) (m : Message) (w' : world),
    messages clk order_by req w =
      (Ok (make_response (OneMessage (message_to_dict i m)) 201), w') ∧
    status_of (messages clk order_by req w).1 = 201 ∧
    table w !! i = None ∧
    table w' !! i = Some m ∧
    body m = b ∧
    username m = "".
Proof.
  intros Hm Hj Hb Hne Hu.
  pose proof (messages_post_text clk order_by w req d b "" Hm Hj Hb Hu Hne) as H.
  cbv zeta in H. eexists _, _, _. rewrite H. cbn [fst table body username].
  split; [reflexivity|]. split; [reflexivity|].
  split; [apply next_id_fresh|].
  split; [apply lookup_insert_eq|]. done.
Qed.

Lemma post_accepts_empty_username_witness :
  ∃ (i : Z) (m : Message) (w' : world),
    messages fine_clock sort_by_created_at (post empty_username) init =
      (Ok (make_response (OneMessage (message_to_dict i m)) 201), w') ∧
    status_of (messages fine_clock sort_by_created_at
                 (post empty_username) init).1 = 201 ∧
    table init !! i = None ∧
    table w' !! i = Some m ∧
    body m = "hi" ∧
    username m = "".
Proof.
  apply (post_accepts_empty_username fine_clock sort_by_created_at init
           (post empty_username)
           (list_to_map [("body", JStr "hi"); ("username", JStr "")]) "hi").
  - reflexivity.
  - reflexivity.
  - reflexivity.
  - discriminate.
  - reflexivity.
Defined.

(** ** PATCH and DELETE /messages/<id> *)

(** The lookup comes first, whatever the method and the payload. *)
Lemma message_by_id_not_found clk (w : world) (i : Z) (req : request) :
  in_int64 i →
  table w !! i = None →
  message_by_id clk i req w =
    (Ok (make_response (Error "Message not found") 404), w).
Proof.
  intros Hrange Hi. unfold message_by_id. run_handler. rewrite Hi.
  by rewrite decide_True.
Qed.

(** An id the driver cannot bind: the lookup raises, outside any [try]. *)
Lemma message_by_id_overflow clk (w : world) (i : Z) (req : request) :
  ¬ in_int64 i →
  table w !! i = None →
  message_by_id clk i req w = (Raise OverflowError, w).
Proof.
  intros Hrange Hi. unfold message_by_id. run_handler. rewrite Hi.
  by rewrite decide_False.
Qed.

Lemma patch_none_payload clk (w : world) (i : Z) (m : Message) (req : request) :
  table w !! i = Some m →
  method req = PATCH →
  json_body req = Ok JNull →
  message_by_id clk i req w = (Raise TypeError, w).
Proof.
  intros Hi Hm Hj. unfold message_by_id. run_handler.
  by rewrite Hi, Hm, Hj.
Qed.

Lemma patch_dict_without_body clk (w : world) (i : Z) (m : Message)
    (req : request) (d : gmap string json) :
  table w !! i = Some m →
  method req = PATCH →
  json_body req = Ok (JObj d) →
  d !! "body" = None →
  message_by_id clk i req w =
    (Ok (make_response (Errors ["Missing body in update request."]) 400), w).
Proof.
  intros Hi Hm Hj Hb. unfold message_by_id. run_handler.
  rewrite Hi, Hm, Hj. cbn. rewrite bool_decide_eq_false_2; [done|].
  rewrite Hb. by intros [? ?].
Qed.

Lemma patch_falsy_body clk (w : world) (i : Z) (m : Message)
    (req : request) (d : gmap string json) (v : json) :
  table w !! i = Some m →
  method req = PATCH →
  json_body req = Ok (JObj d) →
  d !! "body" = Some v →
  truthy v = false →
  message_by_id clk i req w =
    (Ok (make_response (Errors ["Message body cannot be empty."]) 400), w).
Proof.
  intros Hi Hm Hj Hb Hv. unfold message_by_id. run_handler.
  rewrite Hi, Hm, Hj. cbn. rewrite bool_decide_eq_true_2 by eauto.
  rewrite Hb. cbn. unfold validate_body. by rewrite Hv.
Qed.

Lemma patch_text clk (w : world) (i : Z) (m : Message)
    (req : request) (d : gmap string json) (s : string) :
  table w !! i = Some m →
  method req = PATCH →
  json_body req = Ok (JObj d) →
  d !! "body" = Some (JStr s) →
  s ≠ "" →
  message_by_id clk i req w =
    (Ok (make_response
           (OneMessage (message_to_dict i (patched clk i m s w).1)) 202),
     (patched clk i m s w).2).
Proof.
  intros Hi Hm Hj Hb Hne. unfold message_by_id. run_handler.
  rewrite Hi, Hm, Hj. cbn. rewrite bool_decide_eq_true_2 by eauto.
  rewrite Hb. cbn. unfold validate_body.
  rewrite (truthy_nonempty_str s Hne). cbn.
  unfold patched. by destruct (String.eqb s (body m)).
Qed.

Lemma delete_found clk (w : world) (i : Z) (m : Message) (req : request) :
  table w !! i = Some m →
  method req = DELETE →
  message_by_id clk i req w =
    (Ok (make_response Empty 204), mkWorld (delete i (table w)) (reads w)).
Proof.
  intros Hi Hm. unfold message_by_id. run_handler. by rewrite Hi, Hm.
Qed.

(** ** Timestamps are clock readings *)

Lemma stamped_init clk : stamped clk init.
Proof. intros i m Hi. simpl in Hi. by rewrite lookup_empty in Hi. Qed.

Lemma stamped_later clk (t : gmap Z Message) (n n' : nat) :
  (n ≤ n')%nat → stamped clk (mkWorld t n) → stamped clk (mkWorld t n').
Proof.
  intros Hn Hw i m Hi. destruct (Hw i m Hi) as (a & b & ? & ? & ? & ?).
  exists a, b. simpl in *. repeat split; [done|lia|done..].
Qed.

Lemma stamped_insert clk (t : gmap Z Message) (n n' : nat) (i : Z)
    (m : Message) (a b : nat) :
  (n ≤ n')%nat → (a ≤ b)%nat → (b < n')%nat →
  created_at m = clk a → updated_at m = clk b →
  stamped clk (mkWorld t n) →
  stamped clk (mkWorld (<[i := m]> t) n').
Proof.
  intros Hn Hab Hb Hc Hu Hw j mj. simpl.
  destruct (decide (i = j)) as [->|Hne].
  - rewrite lookup_insert_eq. intros [= <-]. by exists a, b.
  - rewrite lookup_insert_ne by done. intros Hj.
    destruct (Hw j mj Hj) as (a' & b' & ? & ? & ? & ?).
    exists a', b'. simpl in *. repeat split; [done|lia|done..].
Qed.

Lemma stamped_delete clk (t : gmap Z Message) (n : nat) (i : Z) :
  stamped clk (mkWorld t n) → stamped clk (mkWorld (delete i t) n).
Proof.
  intros Hw j mj. simpl. intros Hj. apply (Hw j mj). simpl.
  by apply lookup_delete_Some in Hj as [_ ?].
Qed.

Lemma insert_message_stamped clk (b u : json) (w : world) :
  stamped clk w → stamped clk (insert_message clk b u w).2.
Proof.
  destruct w as [t n]. intros Hw. unfold insert_message, now. run_handler.
  destruct (bind_text b) as [bs|e]; simpl;
    [destruct (bind_text u) as [us|e]; simpl|].
  - apply (stamped_insert clk t n _ _ _ n (S n)); simpl; [lia..|done|done|done].
  - apply (stamped_later clk t n); [lia|done].
  - apply (stamped_later clk t n); [lia|done].
Qed.

Lemma update_body_stamped clk (i : Z) (m : Message) (v : json) (w : world) :
  table w !! i = Some m →
  stamped clk w → stamped clk (update_body clk i m v w).2.
Proof.
  destruct w as [t n]. simpl. intros Hi Hw.
  destruct (Hw i m Hi) as (a & b & Hab & Hb & Hc & Hu). simpl in Hb.
  assert (∀ s, stamped clk
            (mkWorld (<[i := mkMessage s (username m) (created_at m) (clk n)]> t)
                     (S n))) as Hset.
  { intros s. apply (stamped_insert clk t n _ _ _ a n); simpl; [lia..|done|done|done]. }
  assert (stamped clk (mkWorld t (S n))) as Hread.
  { apply (stamped_later clk t n); [lia|done]. }
  unfold update_body, now. run_handler.
  destruct v as [|bv|z|s|l|d]; simpl; try done.
  - destruct (decide (in_int64 z)); simpl; done.
  - destruct (String.eqb s (body m)); simpl; done.
Qed.

(** What a request can do to the world: nothing, or its one statement. *)
Lemma messages_world clk order_by (req : request) (w : world) :
  (messages clk order_by req w).2 = w ∨
  ∃ b u, (messages clk order_by req w).2 = (insert_message clk b u w).2.
Proof.
  unfold messages. destruct (method req); run_handler; try (by left).
  destruct (json_body req) as [data|e]; simpl; [|by left].
  destruct (missing_fields data) as [[|]|e]; simpl; try (by left).
  destruct (py_get "body" data) as [b|e]; simpl; [|destruct e; by left].
  destruct (py_get "username" data) as [u|e]; simpl; [|destruct e; by left].
  destruct (validate_body b) as [b'|e]; simpl; [|destruct e; by left].
  right. exists b', u.
  destruct (insert_message clk b' u w) as [[r|e] w']; simpl; [done|].
  by destruct e.
Qed.

Lemma message_by_id_world clk (i : Z) (req : request) (w : world) :
  (message_by_id clk i req w).2 = w ∨
  (∃ m v, table w !! i = Some m ∧
          (message_by_id clk i req w).2 = (update_body clk i m v w).2) ∨
  (message_by_id clk i req w).2 = mkWorld (delete i (table w)) (reads w).
Proof.
  unfold message_by_id. run_handler.
  destruct (table w !! i) as [m|] eqn:Hi;
    [|destruct (decide (in_int64 i)); by left].
  destruct (method req); run_handler; try (by left); [|by right; right].
  destruct (json_body req) as [data|e]; simpl; [|by left].
  destruct (py_in "body" data) as [[|]|e]; simpl; try (by left).
  destruct (py_getitem "body" data) as [v|e]; simpl; [|destruct e; by left].
  destruct (validate_body v) as [v'|e]; simpl; [|destruct e; by left].
  right. left. exists m, v'. split; [done|].
  destruct (update_body clk i m v' w) as [[r|e] w']; simpl; [done|].
  by destruct e.
Qed.

Lemma handle_stamped clk order_by (p : route) (req : request) (w : world) :
  stamped clk w → stamped clk (handle clk order_by p req w).2.
Proof.
  intros Hw. unfold handle.
  destruct p as [|i], (method req) eqn:Hm; try done.
  - destruct (messages_world clk order_by req w) as [->|(b & u & ->)];
      [done|by apply insert_message_stamped].
  - destruct (messages_world clk order_by req w) as [->|(b & u & ->)];
      [done|by apply insert_message_stamped].
  - destruct (message_by_id_world clk i req w)
      as [-> | [(m & v & Hi & ->) | ->]]; [done| |].
    + by apply update_body_stamped.
    + destruct w as [t n]. by apply stamped_delete.
  - destruct (message_by_id_world clk i req w)
      as [-> | [(m & v & Hi & ->) | ->]]; [done| |].
    + by apply update_body_stamped.
    + destruct w as [t n]. by apply stamped_delete.
Qed.

Lemma reachable_stamped clk order_by (w : world) :
  reachable clk order_by w → stamped clk w.
Proof.
  induction 1 as [|p req w Hw IH].
  - apply stamped_init.
  - by apply handle_stamped.
Qed.

(** C8: with a clock that does not run backwards, every record stored
    after any sequence of requests has [updated_at >= created_at]. *)
Theorem updated_at_ge_created_at clk order_by (w : world) (i : Z) (m : Message) :
  monotone_clock clk →
  reachable clk order_by w →
  table w !! i = Some m →
  created_at m ≤ updated_at m.
Proof.
  intros Hclk Hw Hi.
  destruct (reachable_stamped clk order_by w Hw i m Hi)
    as (a & b & Hab & _ & -> & ->).
  by apply Hclk.
Qed.

Lemma updated_at_ge_created_at_witness :
  table (handle fine_clock sort_by_created_at (MessageById 1)
           (patch (obj [("body", JStr "hello")]))
           (one_message fine_clock)).2 !! 1
    = Some (mkMessage "hello" "alice" 0 2) ∧
  created_at (mkMessage "hello" "alice" 0 2)
    ≤ updated_at (mkMessage "hello" "alice" 0 2).
Proof.
  split; [reflexivity|].
  apply (updated_at_ge_created_at fine_clock sort_by_created_at
           (handle fine_clock sort_by_created_at (MessageById 1)
              (patch (obj [("body", JStr "hello")]))
              (one_message fine_clock)).2 1).
  - exact fine_clock_monotone.
  - apply reach_step. apply reach_step. apply reach_init.
  - reflexivity.
Defined.

(** C5: a PATCH /messages/<id> on a stored record with a non-empty text
    [body] is answered 202 with the record as it now is: under the same
    id, with the new body, the same [username] and [created_at], and an
    [updated_at] not earlier than before; no other record changes.  The
    clock is assumed not to run backwards. *)
Theorem patch_sets_body_only clk order_by (w : world) (i : Z) (m : Message)
    (req : request) (d : gmap string json) (s : string) :
  monotone_clock clk →
  reachable clk order_by w →
  table w !! i = Some m →
  method req = PATCH →
  json_body req = Ok (JObj d) →
  d !! "body" = Some (JStr s) →
  s ≠ "" →
  ∃ (m' : Message) (w' : world),
    message_by_id clk i req w =
      (Ok (make_response (OneMessage (message_to_dict i m')) 202), w') ∧
    table w' !! i = Some m' ∧
    body m' = s ∧
    username m' = username m ∧
    created_at m' = created_at m ∧
    updated_at m ≤ updated_at m' ∧
    ∀ j, j ≠ i → table w' !! j = table w !! j.
Proof.
  intros Hclk Hw Hi Hm Hj Hb Hne.
  exists (patched clk i m s w).1, (patched clk i m s w).2.
  split; [by apply (patch_text clk w i m req d s)|].
  unfold patched. destruct (String.eqb_spec s (body m)) as [->|Hs]; simpl.
  - repeat split; [done|lia].
  - destruct (reachable_stamped clk order_by w Hw i m Hi)
      as (a & b & _ & Hlt & _ & Hu).
    split; [apply lookup_insert_eq|]. repeat split.
    + rewrite Hu. apply Hclk. lia.
    + intros j Hji. by rewrite lookup_insert_ne.
Qed.

Lemma patch_sets_body_only_witness :
  ∃ (m' : Message) (w' : world),
    message_by_id fine_clock 1 (patch (obj [("body", JStr "hello")]))
        (one_message fine_clock) =
      (Ok (make_response (OneMessage (message_to_dict 1 m')) 202), w') ∧
    table w' !! 1 = Some m' ∧
    body m' = "hello" ∧
    username m' = username (mkMessage "hi" "alice" 0 1) ∧
    created_at m' = created_at (mkMessage "hi" "alice" 0 1) ∧
    updated_at (mkMessage "hi" "alice" 0 1) ≤ updated_at m' ∧
    ∀ j, j ≠ 1 → table w' !! j = table (one_message fine_clock) !! j.
Proof.
  apply (patch_sets_body_only fine_clock sort_by_created_at
           (one_message fine_clock) 1 (mkMessage "hi" "alice" 0 1)
           (patch (obj [("body", JStr "hello")]))
           (list_to_map [("body", JStr "hello")]) "hello").
  - exact fine_clock_monotone.
  - apply reach_step. apply reach_init.
  - reflexivity.
  - reflexivity.
  - reflexivity.
  - reflexivity.
  - discriminate.
Defined.

(** C9: a PATCH /messages/<id> on a stored record whose payload has an
    empty [body] (the empty string, or any other value Python counts as
    false) is answered 400 and leaves the world as it was: the record
    keeps its body and its [updated_at]. *)
Theorem patch_empty_body_is_400 clk (w : world) (i : Z) (m : Message)
    (req : request) (d : gmap string json) (v : json) :
  table w !! i = Some m →
  method req = PATCH →
  json_body req = Ok (JObj d) →
  d !! "body" = Some v →
  truthy v = false →
  status_of (message_by_id clk i req w).1 = 400 ∧
  (message_by_id clk i req w).2 = w ∧
  table (message_by_id clk i req w).2 !! i = Some m.
Proof.
  intros Hi Hm Hj Hb Hv.
  by rewrite (patch_falsy_body clk w i m req d v).
Qed.

Lemma patch_empty_body_is_400_witness :
  status_of (message_by_id fine_clock 1 (patch (obj [("body", JStr "")]))
               (one_message fine_clock)).1 = 400 ∧
  (message_by_id fine_clock 1 (patch (obj [("body", JStr "")]))
     (one_message fine_clock)).2 = one_message fine_clock ∧
  table (message_by_id fine_clock 1 (patch (obj [("body", JStr "")]))
           (one_message fine_clock)).2 !! 1
    = Some (mkMessage "hi" "alice" 0 1).
Proof.
  apply (patch_empty_body_is_400 fine_clock (one_message fine_clock) 1
           (mkMessage "hi" "alice" 0 1) (patch (obj [("body", JStr "")]))
           (list_to_map [("body", JStr "")]) (JStr "")).
  - reflexivity.
  - reflexivity.
  - reflexivity.
  - reflexivity.
  - reflexivity.
Defined.

(** C3, as the specification states it, fails: the route [<int:id>] lets
    any run of digits through, and [db.session.get] is called outside any
    [try].  For an id that does not fit in 64 bits the driver raises
    [OverflowError], which leaves the handler: the client sees 500, not
    404. *)
Lemma patch_oversized_id_is_500 :
  table (one_message fine_clock) !! 9223372036854775808 = None ∧
  message_by_id fine_clock 9223372036854775808 (patch hello)
      (one_message fine_clock)
    = (Raise OverflowError, one_message fine_clock) ∧
  status_of (message_by_id fine_clock 9223372036854775808 (patch hello)
               (one_message fine_clock)).1 = 500.
Proof. repeat split. Qed.

(** C3 (amended): a PATCH /messages/<id> whose id fits in 64 bits and
    under which no record is stored is answered 404 whatever
    [request.get_json()] would give, a value or an abort: the lookup comes
    before the payload is touched. *)
Theorem patch_unknown_id_is_404 clk (w : world) (i : Z) (req : request) :
  method req = PATCH →
  in_int64 i →
  table w !! i = None →
  message_by_id clk i req w =
    (Ok (make_response (Error "Message not found") 404), w) ∧
  status_of (message_by_id clk i req w).1 = 404.
Proof.
  intros _ Hrange Hi.
  by rewrite (message_by_id_not_found clk w i req Hrange Hi).
Qed.

Lemma patch_unknown_id_is_404_witness :
  message_by_id fine_clock 7 (mkRequest PATCH (Raise (HTTPException 400)))
      (one_message fine_clock) =
    (Ok (make_response (Error "Message not found") 404),
     one_message fine_clock) ∧
  status_of (message_by_id fine_clock 7
               (mkRequest PATCH (Raise (HTTPException 400)))
               (one_message fine_clock)).1 = 404.
Proof.
  apply (patch_unknown_id_is_404 fine_clock (one_message fine_clock) 7
           (mkRequest PATCH (Raise (HTTPException 400)))).
  - reflexivity.
  - unfold in_int64. lia.
  - reflexivity.
Defined.

(** C2 does not hold of the code when the payload is [None]: the PATCH
    branch evaluates ['body' in data] without the [not data] test the POST
    branch makes, so [TypeError] leaves the handler and the client sees
    500 where POST answers 400.  Nothing is written. *)
Theorem patch_none_payload_is_500 :
  message_by_id fine_clock 1 (patch JNull) (one_message fine_clock)
    = (Raise TypeError, one_message fine_clock) ∧
  status_of (message_by_id fine_clock 1 (patch JNull)
               (one_message fine_clock)).1 = 500 ∧
  status_of (messages fine_clock sort_by_created_at (post JNull)
               (one_message fine_clock)).1 = 400.
Proof.
  rewrite (patch_none_payload fine_clock (one_message fine_clock) 1
             (mkMessage "hi" "alice" 0 1) (patch JNull)) by reflexivity.
  repeat split.
Qed.

(** ** GET /messages *)

Lemma messages_get clk order_by (w : world) (req : request) :
  method req = GET →
  messages clk order_by req w =
    (Ok (make_response
           (MessageList (row_to_dict <$> order_by (map_to_list (table w))))
           200),
     w).
Proof. intros Hm. unfold messages. by rewrite Hm. Qed.

(** Every dictionary of the list is a stored row, under its id. *)
Lemma listed_is_stored order_by (t : gmap Z Message) (d : message_dict) :
  order_by_ok order_by →
  d ∈ row_to_dict <$> order_by (map_to_list t) →
  ∃ m, t !! j_id d = Some m ∧ d = message_to_dict (j_id d) m.
Proof.
  intros Hok Hd. apply list_elem_of_fmap in Hd as ([i m] & -> & Hr).
  exists m. split; [|done]. simpl.
  apply elem_of_map_to_list. destruct (Hok (map_to_list t)) as [Hperm _].
  by rewrite <- Hperm.
Qed.

(** C7: in every world GET /messages is answered 200 with all the
    stored records, each once, ordered by [created_at] ascending, records
    with the same [created_at] by ascending id; an empty table gives the
    empty list.  The engine is SQLite's, [sort_by_created_at]: the query
    names [created_at] alone, and the order of ties is the order of the
    scan by rowid. *)
Theorem get_lists_by_created_at_then_id clk (w : world) (req : request) :
  method req = GET →
  ∃ l : list message_dict,
    messages clk sort_by_created_at req w
      = (Ok (make_response (MessageList l) 200), w) ∧
    l ≡ₚ row_to_dict <$> map_to_list (table w) ∧
    StronglySorted by_created_at_then_id l ∧
    (table w = ∅ → l = []).
Proof.
  intros Hm. eexists. split; [by apply messages_get|]. split; [|split].
  - by rewrite sort_by_created_at_Permutation.
  - apply (StronglySorted_fmap row_to_dict row_by_created_at_then_id
             by_created_at_then_id); [done|].
    apply sort_by_created_at_then_id.
  - intros Hempty. by rewrite Hempty, map_to_list_empty.
Qed.

Lemma get_lists_by_created_at_then_id_witness :
  ∃ l : list message_dict,
    messages coarse_clock sort_by_created_at get_request
        (two_messages coarse_clock)
      = (Ok (make_response (MessageList l) 200), two_messages coarse_clock) ∧
    l ≡ₚ row_to_dict <$> map_to_list (table (two_messages coarse_clock)) ∧
    StronglySorted by_created_at_then_id l ∧
    (table (two_messages coarse_clock) = ∅ → l = []).
Proof.
  apply (get_lists_by_created_at_then_id coarse_clock
           (two_messages coarse_clock) get_request).
  reflexivity.
Defined.

(** Two records created within one tick of the clock: the one created
    first is listed first. *)
Example get_lists_ties_by_id :
  monotone_clock coarse_clock ∧
  (messages coarse_clock sort_by_created_at get_request
     (two_messages coarse_clock)).1
    = Ok (make_response
            (MessageList [mkDict 1 "hi" "alice" 0 0; mkDict 2 "hi" "alice" 0 0])
            200).
Proof. split; [exact coarse_clock_monotone|reflexivity]. Qed.

(** C6: a DELETE /messages/<id> on a stored record is answered 204 with an
    empty body and removes the record: the list of a GET /messages that
    follows has no entry with that id, and a second DELETE of the id is
    answered 404.  The id of a stored record is a rowid, hence within 64
    bits. *)
Theorem delete_removes_record clk order_by (w : world) (i : Z) (m : Message)
    (req : request) :
  order_by_ok order_by →
  in_int64 i →
  table w !! i = Some m →
  method req = DELETE →
  ∃ w' : world,
    message_by_id clk i req w = (Ok (make_response Empty 204), w') ∧
    table w' !! i = None ∧
    (∀ get, method get = GET →
       ∃ l, messages clk order_by get w'
              = (Ok (make_response (MessageList l) 200), w') ∧
            ∀ d, d ∈ l → j_id d ≠ i) ∧
    (∀ again, method again = DELETE →
       message_by_id clk i again w'
         = (Ok (make_response (Error "Message not found") 404), w')).
Proof.
  intros Hok Hrange Hi Hm. eexists. split; [by apply (delete_found clk w i m)|].
  assert (delete i (table w) !! i = None) as Hgone by apply lookup_delete_eq.
  cbn [table]. split; [done|]. split.
  - intros get Hget. eexists. split; [by apply messages_get|].
    cbn [table]. intros d Hd Hid.
    destruct (listed_is_stored order_by _ d Hok Hd) as (m' & Hm' & _).
    by rewrite Hid, Hgone in Hm'.
  - intros again _. by apply message_by_id_not_found.
Qed.

Lemma delete_removes_record_witness :
  ∃ w' : world,
    message_by_id fine_clock 1 delete_request (two_messages fine_clock)
      = (Ok (make_response Empty 204), w') ∧
    table w' !! 1 = None ∧
    (∀ get, method get = GET →
       ∃ l, messages fine_clock sort_by_created_at get w'
              = (Ok (make_response (MessageList l) 200), w') ∧
            ∀ d, d ∈ l → j_id d ≠ 1) ∧
    (∀ again, method again = DELETE →
       message_by_id fine_clock 1 again w'
         = (Ok (make_response (Error "Message not found") 404), w')).
Proof.
  apply (delete_removes_record fine_clock sort_by_created_at
           (two_messages fine_clock) 1 (mkMessage "hi" "alice" 0 1)
           delete_request).
  - exact sort_by_created_at_ok.
  - unfold in_int64. lia.
  - reflexivity.
  - reflexivity.
Defined.

(** * Further properties of the handlers and the model *)

(** ** What one statement does to the table *)

Lemma insert_message_table clk (b u : json) (w : world) :
  table (insert_message clk b u w).2 = table w ∨
  ∃ bs us,
    bind_text b = Ok bs ∧ bind_text u = Ok us ∧
    (insert_message clk b u w).1
      = Ok (next_id (table w),
            mkMessage bs us (clk (reads w)) (clk (S (reads w)))) ∧
    table (insert_message clk b u w).2
      = <[next_id (table w) :=
            mkMessage bs us (clk (reads w)) (clk (S (reads w)))]> (table w).
Proof.
  unfold insert_message, now. run_handler.
  destruct (bind_text b) as [bs|e]; simpl; [|by left].
  destruct (bind_text u) as [us|e]; simpl; [|by left].
  right. by exists bs, us.
Qed.

Lemma update_body_table clk (i : Z) (m : Message) (v : json) (w : world) :
  table (update_body clk i m v w).2 = table w ∨
  ∃ bs,
    bind_text v = Ok bs ∧
    (update_body clk i m v w).1
      = Ok (mkMessage bs (username m) (created_at m) (clk (reads w))) ∧
    table (update_body clk i m v w).2
      = <[i := mkMessage bs (username m) (created_at m) (clk (reads w))]>
          (table w).
Proof.
  unfold update_body, now. run_handler.
  destruct v as [|bv|z|s|l|d]; simpl; try (by left);
    try (right; by eexists).
  - destruct (decide (in_int64 z)); simpl; [right; by eexists|by left].
  - destruct (String.eqb s (body m)); simpl; [by left|right; by eexists].
Qed.

Lemma bind_text_raises (v : json) (e : exn) :
  bind_text v = Raise e → e = DatabaseError ∨ e = OverflowError.
Proof.
  destruct v as [|bv|z|s|l|d]; simpl; try (intros [= <-]; by left); try done.
  destruct (decide (in_int64 z)); [done|]. intros [= <-]. by right.
Qed.

Lemma insert_message_raises clk (b u : json) (w : world) (e : exn) :
  (insert_message clk b u w).1 = Raise e →
  e = DatabaseError ∨ e = OverflowError.
Proof.
  unfold insert_message, now. run_handler.
  destruct (bind_text b) as [bs|e1] eqn:Hb; simpl.
  - destruct (bind_text u) as [us|e2] eqn:Hu; simpl; [done|].
    intros [= <-]. by apply (bind_text_raises u).
  - intros [= <-]. by apply (bind_text_raises b).
Qed.

(** The two handlers again, now with what is known of the value written:
    it went through [validate_body]. *)
Lemma messages_writes clk order_by (req : request) (w : world) :
  (messages clk order_by req w).2 = w ∨
  ∃ b u, method req = POST ∧ truthy b = true ∧
         (messages clk order_by req w).2 = (insert_message clk b u w).2 ∧
         ((messages clk order_by req w).1
            = Ok (make_response
                    (Errors ["Could not process the message creation."]) 500)
          ∨ ∃ r, (insert_message clk b u w).1 = Ok r ∧
                 (messages clk order_by req w).1
                   = Ok (make_response
                           (OneMessage (message_to_dict r.1 r.2)) 201)).
Proof.
  unfold messages. destruct (method req); run_handler; try (by left).
  destruct (json_body req) as [data|e]; simpl; [|by left].
  destruct (missing_fields data) as [[|]|e]; simpl; try (by left).
  destruct (py_get "body" data) as [b|e]; simpl; [|destruct e; by left].
  destruct (py_get "username" data) as [u|e]; simpl; [|destruct e; by left].
  unfold validate_body. destruct (truthy b) eqn:Hb; simpl; [|by left].
  right. exists b, u. split; [done|]. split; [done|].
  destruct (insert_message clk b u w) as [[r|e] w'] eqn:Hins; simpl.
  - split; [done|]. right. by exists r.
  - assert (e = DatabaseError ∨ e = OverflowError) as [-> | ->].
    { apply (insert_message_raises clk b u w). by rewrite Hins. }
    + simpl. split; [done|by left].
    + simpl. split; [done|by left].
Qed.

Lemma message_by_id_writes clk (i : Z) (req : request) (w : world) :
  (message_by_id clk i req w).2 = w ∨
  (∃ m v, method req = PATCH ∧ table w !! i = Some m ∧ truthy v = true ∧
          (message_by_id clk i req w).2 = (update_body clk i m v w).2) ∨
  (method req = DELETE ∧ is_Some (table w !! i) ∧
   message_by_id clk i req w
     = (Ok (make_response Empty 204), mkWorld (delete i (table w)) (reads w))).
Proof.
  unfold message_by_id. run_handler.
  destruct (table w !! i) as [m|] eqn:Hi;
    [|destruct (decide (in_int64 i)); by left].
  destruct (method req); run_handler; try (by left);
    [|right; right; by eauto].
  destruct (json_body req) as [data|e]; simpl; [|by left].
  destruct (py_in "body" data) as [[|]|e]; simpl; try (by left).
  destruct (py_getitem "body" data) as [v|e]; simpl; [|destruct e; by left].
  unfold validate_body. destruct (truthy v) eqn:Hv; simpl; [|by left].
  right. left. exists m, v. repeat split; [done|].
  destruct (update_body clk i m v w) as [[r|e] w']; simpl; [done|].
  by destruct e.
Qed.

(** ** POST /messages: what is stored and what is not *)

Lemma missing_fields_raises (data : json) (e : exn) :
  missing_fields data = Raise e → e = TypeError.
Proof.
  unfold missing_fields. destruct (truthy data); simpl; [|done].
  destruct data as [| |z|s|l|d]; simpl; try congruence.
  - by destruct (str_contains "body" s).
  - by destruct (existsb (is_str "body") l).
  - by destruct (bool_decide (is_Some (d !! "body"))).
Qed.

(** X1: a POST /messages with a text [username] and a non-empty text
    [body] adds exactly one record, with that body and username, under an
    id that was free and is larger than every id in the table; every
    record that was stored is still there, as it was. *)
Theorem post_adds_one_record clk order_by (w : world) (req : request)
    (d : gmap string json) (b u : string) :
  method req = POST →
  json_body req = Ok (JObj d) →
  d !! "body" = Some (JStr b) →
  d !! "username" = Some (JStr u) →
  b ≠ "" →
  ∃ (i : Z) (m : Message),
    table (messages clk order_by req w).2 = <[i := m]> (table w) ∧
    table w !! i = None ∧
    (∀ j, is_Some (table w !! j) → j < i) ∧
    body m = b ∧ username m = u ∧
    size (table (messages clk order_by req w).2) = S (size (table w)) ∧
    ∀ j mj, table w !! j = Some mj →
            table (messages clk order_by req w).2 !! j = Some mj.
Proof.
  intros Hm Hj Hb Hu Hne.
  pose proof (messages_post_text clk order_by w req d b u Hm Hj Hb Hu Hne) as H.
  cbv zeta in H. rewrite H. cbn [snd table].
  eexists _, _. split; [reflexivity|]. cbn [body username].
  pose proof (next_id_fresh (table w)) as Hfresh.
  split; [done|]. split; [apply next_id_above|].
  split; [done|]. split; [done|].
  split; [by apply map_size_insert_None|].
  intros j mj Hjm. rewrite lookup_insert_ne; [done|].
  intros <-. by rewrite Hfresh in Hjm.
Qed.

Lemma post_adds_one_record_witness :
  ∃ (i : Z) (m : Message),
    table (messages fine_clock sort_by_created_at (post hi_alice)
             (one_message fine_clock)).2
      = <[i := m]> (table (one_message fine_clock)) ∧
    table (one_message fine_clock) !! i = None ∧
    (∀ j, is_Some (table (one_message fine_clock) !! j) → j < i) ∧
    body m = "hi" ∧ username m = "alice" ∧
    size (table (messages fine_clock sort_by_created_at (post hi_alice)
                   (one_message fine_clock)).2)
      = S (size (table (one_message fine_clock))) ∧
    ∀ j mj, table (one_message fine_clock) !! j = Some mj →
            table (messages fine_clock sort_by_created_at (post hi_alice)
                     (one_message fine_clock)).2 !! j = Some mj.
Proof.
  apply (post_adds_one_record fine_clock sort_by_created_at
           (one_message fine_clock) (post hi_alice)
           (list_to_map [("body", JStr "hi"); ("username", JStr "alice")])
           "hi" "alice").
  - reflexivity.
  - reflexivity.
  - reflexivity.
  - reflexivity.
  - discriminate.
Defined.

(** X2: a POST /messages whose [body] is any value Python counts as false
    ([None], [0], [False], [''], an empty list or dict), the payload
    having both keys, is answered 400 with the message of
    [validate_body], and nothing is written. *)
Theorem post_falsy_body_is_400 clk order_by (w : world) (req : request)
    (d : gmap string json) (b u : json) :
  method req = POST →
  json_body req = Ok (JObj d) →
  d !! "body" = Some b →
  d !! "username" = Some u →
  truthy b = false →
  messages clk order_by req w =
    (Ok (make_response (Errors ["Message body cannot be empty."]) 400), w) ∧
  status_of (messages clk order_by req w).1 = 400.
Proof.
  intros Hm Hj Hb Hu Hfalsy.
  by rewrite (messages_post_empty_body clk order_by w req d b u).
Qed.

Lemma post_falsy_body_is_400_witness :
  messages fine_clock sort_by_created_at (post null_body)
      (one_message fine_clock) =
    (Ok (make_response (Errors ["Message body cannot be empty."]) 400),
     one_message fine_clock) ∧
  status_of (messages fine_clock sort_by_created_at (post null_body)
               (one_message fine_clock)).1 = 400.
Proof.
  apply (post_falsy_body_is_400 fine_clock sort_by_created_at
           (one_message fine_clock) (post null_body)
           (list_to_map [("body", JNull); ("username", JStr "alice")])
           JNull (JStr "alice")).
  - reflexivity.
  - reflexivity.
  - reflexivity.
  - reflexivity.
  - reflexivity.
Defined.

(** X3: a POST /messages whose payload has the key [username] with the
    value [None] passes the presence test; the INSERT then fails on the
    [nullable=False] column, [except Exception] answers 500 with its fixed
    message, and the table is as it was. *)
Theorem post_null_username_is_500 clk order_by (w : world) (req : request)
    (d : gmap string json) (b : string) :
  method req = POST →
  json_body req = Ok (JObj d) →
  d !! "body" = Some (JStr b) →
  b ≠ "" →
  d !! "username" = Some JNull →
  (messages clk order_by req w).1 =
    Ok (make_response (Errors ["Could not process the message creation."]) 500) ∧
  table (messages clk order_by req w).2 = table w.
Proof.
  intros Hm Hj Hb Hne Hu. unfold messages. rewrite Hm. run_handler.
  rewrite Hj, (missing_fields_both_present d _ _ Hb Hu). simpl.
  rewrite Hb, Hu. simpl. unfold validate_body.
  by rewrite (truthy_nonempty_str b Hne).
Qed.

Lemma post_null_username_is_500_witness :
  (messages fine_clock sort_by_created_at (post null_username)
     (one_message fine_clock)).1 =
    Ok (make_response (Errors ["Could not process the message creation."]) 500) ∧
  table (messages fine_clock sort_by_created_at (post null_username)
           (one_message fine_clock)).2
    = table (one_message fine_clock).
Proof.
  apply (post_null_username_is_500 fine_clock sort_by_created_at
           (one_message fine_clock) (post null_username)
           (list_to_map [("body", JStr "hi"); ("username", JNull)]) "hi").
  - reflexivity.
  - reflexivity.
  - reflexivity.
  - discriminate.
  - reflexivity.
Defined.

(** X4: a POST /messages whose payload is any value Python counts as
    false ([None], [{}], [[]], [''], [0], [False]) is answered 400 by the
    [not data] test, before any key is looked for. *)
Theorem post_falsy_payload_is_400 clk order_by (w : world) (req : request)
    (data : json) :
  method req = POST →
  json_body req = Ok data →
  truthy data = false →
  messages clk order_by req w =
    (Ok (make_response
           (Errors ["Missing body or username in request data."]) 400), w).
Proof.
  intros Hm Hj Hfalsy. apply (messages_post_missing _ _ _ _ data); [done..|].
  unfold missing_fields. by rewrite Hfalsy.
Qed.

Lemma post_falsy_payload_is_400_witness :
  messages fine_clock sort_by_created_at (post (JObj ∅))
      (one_message fine_clock) =
    (Ok (make_response
           (Errors ["Missing body or username in request data."]) 400),
     one_message fine_clock).
Proof.
  apply (post_falsy_payload_is_400 fine_clock sort_by_created_at
           (one_message fine_clock) (post (JObj ∅)) (JObj ∅)).
  - reflexivity.
  - reflexivity.
  - reflexivity.
Defined.

(** X5: a POST /messages whose payload is a non-zero number or [True]
    passes [not data]; ['body' not in data] then raises [TypeError]
    outside the [try], so the exception leaves the handler (500) and
    nothing is written. *)
Theorem post_scalar_payload_is_500 clk order_by (w : world) (req : request)
    (data : json) :
  method req = POST →
  json_body req = Ok data →
  (data = JBool true ∨ ∃ z, z ≠ 0 ∧ data = JNum z) →
  messages clk order_by req w = (Raise TypeError, w) ∧
  status_of (messages clk order_by req w).1 = 500.
Proof.
  intros Hm Hj Hdata.
  assert (missing_fields data = Raise TypeError) as Hmiss.
  { destruct Hdata as [->|(z & Hz & ->)]; [done|].
    unfold missing_fields. simpl. by destruct (Z.eqb_spec z 0). }
  unfold messages. rewrite Hm. run_handler. by rewrite Hj, Hmiss.
Qed.

Lemma post_scalar_payload_is_500_witness :
  messages fine_clock sort_by_created_at (post (JNum 7))
      (one_message fine_clock)
    = (Raise TypeError, one_message fine_clock) ∧
  status_of (messages fine_clock sort_by_created_at (post (JNum 7))
               (one_message fine_clock)).1 = 500.
Proof.
  apply (post_scalar_payload_is_500 fine_clock sort_by_created_at
           (one_message fine_clock) (post (JNum 7)) (JNum 7)).
  - reflexivity.
  - reflexivity.
  - right. exists 7. split; [discriminate|reflexivity].
Defined.

(** X6: a POST /messages whose payload was parsed is answered 201, 400 or
    500 and nothing else; it adds one record when the answer is 201 and
    leaves the table as it was otherwise. *)
Theorem post_writes_only_on_201 clk order_by (w : world) (req : request)
    (data : json) :
  method req = POST →
  json_body req = Ok data →
  (status_of (messages clk order_by req w).1 = 201 ∧
   size (table (messages clk order_by req w).2) = S (size (table w))) ∨
  ((status_of (messages clk order_by req w).1 = 400 ∨
    status_of (messages clk order_by req w).1 = 500) ∧
   table (messages clk order_by req w).2 = table w).
Proof.
  intros Hm Hj. unfold messages. rewrite Hm. run_handler. rewrite Hj. simpl.
  destruct (missing_fields data) as [[|]|e] eqn:Hmiss; simpl.
  - right. by auto.
  - destruct (py_get "body" data) as [b|e]; simpl;
      [|destruct e; right; by auto].
    destruct (py_get "username" data) as [u|e]; simpl;
      [|destruct e; right; by auto].
    destruct (validate_body b) as [b'|e]; simpl;
      [|destruct e; right; by auto].
    destruct (insert_message_table clk b' u w) as [Hsame|(bs & us & _ & _ & Hr & Ht)].
    + destruct (insert_message clk b' u w) as [[r|e] w'] eqn:Hins; simpl in *.
      * left. split; [done|]. exfalso. revert Hins Hsame.
        unfold insert_message, now. run_handler.
        destruct (bind_text b') as [bs|e1]; simpl; [|done].
        destruct (bind_text u) as [us|e2]; simpl; [|done].
        intros [= <- <-]. simpl. intros Heq.
        pose proof (next_id_fresh (table w)) as Hfresh.
        apply (f_equal (λ t, t !! next_id (table w))) in Heq.
        by rewrite lookup_insert_eq, Hfresh in Heq.
      * destruct e; right; by auto.
    + destruct (insert_message clk b' u w) as [[r|e] w'] eqn:Hins;
        simpl in *; [|done].
      left. split; [done|]. rewrite Ht.
      apply map_size_insert_None, next_id_fresh.
  - apply missing_fields_raises in Hmiss as ->. right. by auto.
Qed.

Lemma post_writes_only_on_201_witness :
  (status_of (messages fine_clock sort_by_created_at (post null_username)
                (one_message fine_clock)).1 = 201 ∧
   size (table (messages fine_clock sort_by_created_at (post null_username)
                  (one_message fine_clock)).2)
     = S (size (table (one_message fine_clock)))) ∨
  ((status_of (messages fine_clock sort_by_created_at (post null_username)
                 (one_message fine_clock)).1 = 400 ∨
    status_of (messages fine_clock sort_by_created_at (post null_username)
                 (one_message fine_clock)).1 = 500) ∧
   table (messages fine_clock sort_by_created_at (post null_username)
            (one_message fine_clock)).2
     = table (one_message fine_clock)).
Proof.
  apply (post_writes_only_on_201 fine_clock sort_by_created_at
           (one_message fine_clock) (post null_username) null_username).
  - reflexivity.
  - reflexivity.
Defined.

(** ** PATCH and DELETE /messages/<id>: the other paths *)

Lemma prefix_app (n post : string) : String.prefix n (n +:+ post) = true.
Proof.
  induction n as [|c n IH]; simpl; [by destruct post|].
  destruct (Ascii.ascii_dec c c); [done|congruence].
Qed.

(** The model of Python's substring test finds every occurrence. *)
Lemma str_contains_infix (n pre post : string) :
  str_contains n (pre +:+ n +:+ post) = true.
Proof.
  assert (∀ h, String.prefix n h = true → str_contains n h = true) as Hhead.
  { intros h Hh. destruct h; simpl in *; by rewrite Hh. }
  induction pre as [|c pre IH].
  - apply (Hhead (n +:+ post)), prefix_app.
  - simpl. rewrite IH. apply orb_true_r.
Qed.

(** X7: a PATCH /messages/<id> on a stored record whose payload is a dict
    without the key [body], the empty dict included, is answered 400 with
    'Missing body in update request.' and nothing is written. *)
Theorem patch_without_body_key_is_400 clk (w : world) (i : Z) (m : Message)
    (req : request) (d : gmap string json) :
  table w !! i = Some m →
  method req = PATCH →
  json_body req = Ok (JObj d) →
  d !! "body" = None →
  message_by_id clk i req w =
    (Ok (make_response (Errors ["Missing body in update request."]) 400), w) ∧
  status_of (message_by_id clk i req w).1 = 400.
Proof.
  intros Hi Hm Hj Hb. by rewrite (patch_dict_without_body clk w i m req d).
Qed.

Lemma patch_without_body_key_is_400_witness :
  message_by_id fine_clock 1 (patch (JObj ∅)) (one_message fine_clock) =
    (Ok (make_response (Errors ["Missing body in update request."]) 400),
     one_message fine_clock) ∧
  status_of (message_by_id fine_clock 1 (patch (JObj ∅))
               (one_message fine_clock)).1 = 400.
Proof.
  apply (patch_without_body_key_is_400 fine_clock (one_message fine_clock) 1
           (mkMessage "hi" "alice" 0 1) (patch (JObj ∅)) ∅).
  - reflexivity.
  - reflexivity.
  - reflexivity.
  - reflexivity.
Defined.

(** X8: a PATCH /messages/<id> on a stored record whose payload is a list
    with the element ['body'], or a string in which [body] occurs, passes
    ['body' in data]; [data['body']] then raises inside the [try] and is
    answered 500 with 'Could not update the message.'; nothing is
    written. *)
Theorem patch_list_or_string_is_500 clk (w : world) (i : Z) (m : Message)
    (req : request) (data : json) :
  table w !! i = Some m →
  method req = PATCH →
  json_body req = Ok data →
  ((∃ l, data = JArr l ∧ JStr "body" ∈ l) ∨
   (∃ pre post, data = JStr (pre +:+ "body" +:+ post))) →
  message_by_id clk i req w =
    (Ok (make_response (Errors ["Could not update the message."]) 500), w).
Proof.
  intros Hi Hm Hj Hdata.
  assert (py_in "body" data = Ok true ∧ py_getitem "body" data = Raise TypeError)
    as [Hin Hget].
  { destruct Hdata as [(l & -> & Hl)|(pre & post & ->)]; simpl.
    - split; [|done]. f_equal. apply existsb_exists.
      exists (JStr "body"). split; [by apply list_elem_of_In|done].
    - split; [|done]. f_equal. apply (str_contains_infix "body"). }
  unfold message_by_id. run_handler. by rewrite Hi, Hm, Hj, Hin, Hget.
Qed.

Lemma patch_list_or_string_is_500_witness :
  message_by_id fine_clock 1 (patch (JArr [JStr "body"]))
      (one_message fine_clock) =
    (Ok (make_response (Errors ["Could not update the message."]) 500),
     one_message fine_clock).
Proof.
  apply (patch_list_or_string_is_500 fine_clock (one_message fine_clock) 1
           (mkMessage "hi" "alice" 0 1) (patch (JArr [JStr "body"]))
           (JArr [JStr "body"])).
  - reflexivity.
  - reflexivity.
  - reflexivity.
  - left. exists [JStr "body"]. split; [reflexivity|]. apply list_elem_of_here.
Defined.

(** X9: a DELETE /messages/<id> whose id fits in 64 bits and under which
    no record is stored is answered 404 with the singular error message,
    and nothing changes. *)
Theorem delete_unknown_id_is_404 clk (w : world) (i : Z) (req : request) :
  method req = DELETE →
  in_int64 i →
  table w !! i = None →
  message_by_id clk i req w =
    (Ok (make_response (Error "Message not found") 404), w) ∧
  status_of (message_by_id clk i req w).1 = 404.
Proof.
  intros _ Hrange Hi.
  by rewrite (message_by_id_not_found clk w i req Hrange Hi).
Qed.

Lemma delete_unknown_id_is_404_witness :
  message_by_id fine_clock 9 delete_request (one_message fine_clock) =
    (Ok (make_response (Error "Message not found") 404),
     one_message fine_clock) ∧
  status_of (message_by_id fine_clock 9 delete_request
               (one_message fine_clock)).1 = 404.
Proof.
  apply (delete_unknown_id_is_404 fine_clock (one_message fine_clock) 9
           delete_request).
  - reflexivity.
  - unfold in_int64. lia.
  - reflexivity.
Defined.

(** X10: a DELETE /messages/<id> on a stored record removes that record
    and no other: the table has one record fewer, every other id keeps
    its record, and the clock is not read. *)
Theorem delete_removes_only_that_record clk (w : world) (i : Z) (m : Message)
    (req : request) :
  table w !! i = Some m →
  method req = DELETE →
  table (message_by_id clk i req w).2 = delete i (table w) ∧
  S (size (table (message_by_id clk i req w).2)) = size (table w) ∧
  reads (message_by_id clk i req w).2 = reads w ∧
  ∀ j, j ≠ i → table (message_by_id clk i req w).2 !! j = table w !! j.
Proof.
  intros Hi Hm. rewrite (delete_found clk w i m req Hi Hm). cbn [snd table reads].
  split; [done|]. split.
  - rewrite map_size_delete, Hi. simpl.
    assert (size (table w) ≠ 0%nat); [|lia].
    apply map_size_non_empty_iff. intros Hempty.
    by rewrite Hempty, lookup_empty in Hi.
  - split; [done|]. intros j Hji. by rewrite lookup_delete_ne.
Qed.

Lemma delete_removes_only_that_record_witness :
  table (message_by_id fine_clock 1 delete_request
           (two_messages fine_clock)).2
    = delete 1 (table (two_messages fine_clock)) ∧
  S (size (table (message_by_id fine_clock 1 delete_request
                    (two_messages fine_clock)).2))
    = size (table (two_messages fine_clock)) ∧
  reads (message_by_id fine_clock 1 delete_request
           (two_messages fine_clock)).2
    = reads (two_messages fine_clock) ∧
  ∀ j, j ≠ 1 →
       table (message_by_id fine_clock 1 delete_request
                (two_messages fine_clock)).2 !! j
         = table (two_messages fine_clock) !! j.
Proof.
  apply (delete_removes_only_that_record fine_clock (two_messages fine_clock)
           1 (mkMessage "hi" "alice" 0 1) delete_request).
  - reflexivity.
  - reflexivity.
Defined.

(** X11: a request to /messages/<id> changes the table in two cases only:
    a PATCH answered 202, which replaces the record under the id by one
    with the same [username] and [created_at], and a DELETE answered 204,
    which removes it.  Every other answer leaves the table as it was. *)
Theorem item_writes_only_on_202_204 clk (w : world) (i : Z) (req : request) :
  table (message_by_id clk i req w).2 = table w ∨
  (method req = PATCH ∧
   status_of (message_by_id clk i req w).1 = 202 ∧
   ∃ m m', table w !! i = Some m ∧
           table (message_by_id clk i req w).2 = <[i := m']> (table w) ∧
           username m' = username m ∧ created_at m' = created_at m) ∨
  (method req = DELETE ∧
   status_of (message_by_id clk i req w).1 = 204 ∧
   table (message_by_id clk i req w).2 = delete i (table w)).
Proof.
  unfold message_by_id. run_handler.
  destruct (table w !! i) as [m|] eqn:Hi;
    [|destruct (decide (in_int64 i)); by left].
  destruct (method req) eqn:Hm; run_handler; try (by left);
    [|right; right; by auto].
  destruct (json_body req) as [data|e]; simpl; [|by left].
  destruct (py_in "body" data) as [[|]|e]; simpl; try (by left).
  destruct (py_getitem "body" data) as [v|e]; simpl; [|destruct e; by left].
  destruct (validate_body v) as [v'|e]; simpl; [|destruct e; by left].
  destruct (update_body_table clk i m v' w) as [Hsame|(bs & _ & Hr & Ht)].
  - left. destruct (update_body clk i m v' w) as [[r|e] w']; simpl in *;
      [done|by destruct e].
  - right. left.
    destruct (update_body clk i m v' w) as [[r|e] w']; simpl in *; [|done].
    split; [done|]. split; [done|]. by eexists m, _.
Qed.

(** ** What any request keeps *)

Lemma pretty_N_go_nonempty (x : N) (s : string) :
  s ≠ "" → pretty_N_go x s ≠ "".
Proof.
  revert s. induction (N.lt_wf_0 x) as [x _ IH]. intros s Hs.
  assert (x = 0 ∨ 0 < x)%N as [->|Hx] by lia.
  - by rewrite pretty_N_go_0.
  - rewrite pretty_N_go_step by done. apply IH; [by apply N.div_lt|done].
Qed.

Lemma pretty_N_nonempty (x : N) : pretty x ≠ "".
Proof.
  unfold pretty, pretty_N. case_decide as Hx; [done|].
  rewrite pretty_N_go_step by lia. by apply pretty_N_go_nonempty.
Qed.

Lemma pretty_Z_nonempty (z : Z) : pretty z ≠ "".
Proof.
  destruct z as [|p|p]; [done| |done].
  apply (pretty_N_nonempty (Npos p)).
Qed.

(** What passes [validate_body] is stored as a non-empty text. *)
Lemma bind_text_truthy (v : json) (bs : string) :
  truthy v = true → bind_text v = Ok bs → bs ≠ "".
Proof.
  destruct v as [|[|]|z|s|l|d]; simpl; try done.
  - by intros _ [= <-].
  - destruct (decide (in_int64 z)); [|done].
    intros _ [= <-]. apply pretty_Z_nonempty.
  - destruct s; [done|]. by intros _ [= <-].
Qed.

(** The four things a request can do to the table. *)
Lemma handle_table clk order_by (p : route) (req : request) (w : world) :
  table (handle clk order_by p req w).2 = table w ∨
  (∃ m, table (handle clk order_by p req w).2
          = <[next_id (table w) := m]> (table w) ∧
        body m ≠ "" ∧
        created_at m = clk (reads w) ∧ updated_at m = clk (S (reads w))) ∨
  (∃ i m bs, table w !! i = Some m ∧ bs ≠ "" ∧
        table (handle clk order_by p req w).2
          = <[i := mkMessage bs (username m) (created_at m) (clk (reads w))]>
              (table w)) ∨
  (∃ i, is_Some (table w !! i) ∧
        table (handle clk order_by p req w).2 = delete i (table w)).
Proof.
  assert (table (messages clk order_by req w).2 = table w ∨
          ∃ m, table (messages clk order_by req w).2
                 = <[next_id (table w) := m]> (table w) ∧
               body m ≠ "" ∧
               created_at m = clk (reads w) ∧ updated_at m = clk (S (reads w)))
    as Hpost.
  { destruct (messages_writes clk order_by req w)
      as [->|(b & u & _ & Hb & -> & _)]; [by left|].
    destruct (insert_message_table clk b u w)
      as [Hsame|(bs & us & Hbs & _ & _ & Ht)]; [by left|].
    right. eexists. split; [exact Ht|]. simpl.
    split; [by apply (bind_text_truthy b)|done]. }
  assert (∀ i,
    table (message_by_id clk i req w).2 = table w ∨
    (∃ m bs, table w !! i = Some m ∧ bs ≠ "" ∧
       table (message_by_id clk i req w).2
         = <[i := mkMessage bs (username m) (created_at m) (clk (reads w))]>
             (table w)) ∨
    (is_Some (table w !! i) ∧
     table (message_by_id clk i req w).2 = delete i (table w))) as Hitem.
  { intros i. destruct (message_by_id_writes clk i req w)
      as [-> | [(m & v & _ & Hi & Hv & ->) | (_ & Hi & ->)]];
      [by left| |by right; right].
    destruct (update_body_table clk i m v w)
      as [Hsame|(bs & Hbs & _ & Ht)]; [by left|].
    right. left. exists m, bs. split; [done|].
    split; [by apply (bind_text_truthy v)|done]. }
  unfold handle. destruct p as [|i], (method req); try (by left).
  - destruct Hpost as [?|?]; [by left|by right; left].
  - destruct Hpost as [?|?]; [by left|by right; left].
  - destruct (Hitem i) as [?|[(m & bs & ? & ? & ?)|[? ?]]];
      [by left|right; right; left; by exists i, m, bs|right; right; right; by exists i].
  - destruct (Hitem i) as [?|[(m & bs & ? & ? & ?)|[? ?]]];
      [by left|right; right; left; by exists i, m, bs|right; right; right; by exists i].
Qed.

(** X12: no request changes the [username] or the [created_at] of a
    record: whatever the route, the method and the payload, a record that
    is stored under an id before and after the request has the same
    [username] and [created_at]. *)
Theorem request_keeps_username_and_created_at clk order_by (p : route)
    (req : request) (w : world) (i : Z) (m m' : Message) :
  table w !! i = Some m →
  table (handle clk order_by p req w).2 !! i = Some m' →
  username m' = username m ∧ created_at m' = created_at m.
Proof.
  intros Hi Hi'.
  destruct (handle_table clk order_by p req w)
    as [Ht|[(mn & Ht & _)|[(j & mj & bs & Hj & _ & Ht)|(j & _ & Ht)]]];
    rewrite Ht in Hi'.
  - by simplify_eq.
  - rewrite lookup_insert_ne in Hi'; [by simplify_eq|].
    intros Heq. pose proof (next_id_fresh (table w)) as Hfresh.
    by rewrite Heq, Hi in Hfresh.
  - destruct (decide (j = i)) as [->|Hne].
    + rewrite lookup_insert_eq in Hi'. by simplify_eq.
    + rewrite lookup_insert_ne in Hi' by done. by simplify_eq.
  - apply lookup_delete_Some in Hi' as [_ Hi']. by simplify_eq.
Qed.

Lemma request_keeps_username_and_created_at_witness :
  username (mkMessage "hello" "alice" 0 2) = username (mkMessage "hi" "alice" 0 1) ∧
  created_at (mkMessage "hello" "alice" 0 2)
    = created_at (mkMessage "hi" "alice" 0 1).
Proof.
  apply (request_keeps_username_and_created_at fine_clock sort_by_created_at
           (MessageById 1) (patch hello) (one_message fine_clock) 1).
  - reflexivity.
  - reflexivity.
Defined.

(** X13: with a clock that does not run backwards, no request lowers the
    [updated_at] of a record: in a world the service can reach, a record
    stored under an id before and after a request has an [updated_at] not
    earlier than before. *)
Theorem request_never_lowers_updated_at clk order_by (p : route)
    (req : request) (w : world) (i : Z) (m m' : Message) :
  monotone_clock clk →
  reachable clk order_by w →
  table w !! i = Some m →
  table (handle clk order_by p req w).2 !! i = Some m' →
  updated_at m ≤ updated_at m'.
Proof.
  intros Hclk Hw Hi Hi'.
  destruct (reachable_stamped clk order_by w Hw i m Hi)
    as (a & b & _ & Hb & _ & Hu).
  destruct (handle_table clk order_by p req w)
    as [Ht|[(mn & Ht & _)|[(j & mj & bs & Hj & _ & Ht)|(j & _ & Ht)]]];
    rewrite Ht in Hi'.
  - simplify_eq. lia.
  - rewrite lookup_insert_ne in Hi'; [simplify_eq; lia|].
    intros Heq. pose proof (next_id_fresh (table w)) as Hfresh.
    by rewrite Heq, Hi in Hfresh.
  - destruct (decide (j = i)) as [->|Hne].
    + rewrite lookup_insert_eq in Hi'. simplify_eq. simpl.
      rewrite Hu. apply Hclk. lia.
    + rewrite lookup_insert_ne in Hi' by done. simplify_eq. lia.
  - apply lookup_delete_Some in Hi' as [_ Hi']. simplify_eq. lia.
Qed.

Lemma request_never_lowers_updated_at_witness :
  updated_at (mkMessage "hi" "alice" 0 1)
    ≤ updated_at (mkMessage "hello" "alice" 0 2).
Proof.
  apply (request_never_lowers_updated_at fine_clock sort_by_created_at
           (MessageById 1) (patch hello) (one_message fine_clock) 1).
  - exact fine_clock_monotone.
  - apply reach_step. apply reach_init.
  - reflexivity.
  - reflexivity.
Defined.

Lemma handle_bodies_nonempty clk order_by (p : route) (req : request)
    (w : world) :
  bodies_nonempty w → bodies_nonempty (handle clk order_by p req w).2.
Proof.
  intros Hw i m.
  destruct (handle_table clk order_by p req w)
    as [Ht|[(mn & Ht & Hmn & _)|[(j & mj & bs & Hj & Hbs & Ht)|(j & _ & Ht)]]];
    rewrite Ht.
  - apply Hw.
  - intros [[_ <-]|[_ Hi]]%lookup_insert_Some; [done|by apply (Hw i)].
  - intros [[_ <-]|[_ Hi]]%lookup_insert_Some; [done|by apply (Hw i)].
  - intros [_ Hi]%lookup_delete_Some. by apply (Hw i).
Qed.

(** X14: no stored record ever has an empty body: after any sequence of
    requests from the empty database, the [body] of every record in the
    table is a non-empty text. *)
Theorem stored_body_never_empty clk order_by (w : world) (i : Z) (m : Message) :
  reachable clk order_by w →
  table w !! i = Some m →
  body m ≠ "".
Proof.
  intros Hw. revert i m.
  induction Hw as [|p req w Hw IH]; intros i m.
  - simpl. by rewrite lookup_empty.
  - apply (handle_bodies_nonempty clk order_by p req w). exact IH.
Qed.

Lemma stored_body_never_empty_witness :
  body (mkMessage "hello" "alice" 0 2) ≠ "".
Proof.
  apply (stored_body_never_empty fine_clock sort_by_created_at
           (handle fine_clock sort_by_created_at (MessageById 1) (patch hello)
              (one_message fine_clock)).2 1).
  - apply reach_step. apply reach_step. apply reach_init.
  - reflexivity.
Defined.

(** ** GET /messages and how the requests compose *)

(** [message_to_dict] loses nothing: the dictionary determines the id and
    the four columns. *)
Lemma message_to_dict_inj (i i' : Z) (m m' : Message) :
  message_to_dict i m = message_to_dict i' m' → i = i' ∧ m = m'.
Proof. destruct m, m'. unfold message_to_dict. simpl. by intros [= -> -> -> -> ->]. Qed.

Lemma listed_iff_stored order_by (t : gmap Z Message) (i : Z) (m : Message) :
  order_by_ok order_by →
  message_to_dict i m ∈ row_to_dict <$> order_by (map_to_list t) ↔
  t !! i = Some m.
Proof.
  intros Hok. destruct (Hok (map_to_list t)) as [Hperm _]. split.
  - intros ([i' m'] & Heq & Hr)%list_elem_of_fmap.
    apply message_to_dict_inj in Heq as [-> ->].
    rewrite Hperm in Hr. by apply elem_of_map_to_list in Hr.
  - intros Hi. apply list_elem_of_fmap. exists (i, m). split; [done|].
    rewrite Hperm. by apply elem_of_map_to_list.
Qed.

Lemma listed_ids_nodup order_by (t : gmap Z Message) :
  order_by_ok order_by →
  NoDup (j_id <$> (row_to_dict <$> order_by (map_to_list t))).
Proof.
  intros Hok. destruct (Hok (map_to_list t)) as [Hperm _].
  rewrite <- list_fmap_compose.
  assert (j_id ∘ row_to_dict = fst) as -> by done.
  rewrite Hperm. apply NoDup_fst_map_to_list.
Qed.

(** X15: the list of GET /messages is the table, no more and no less: a
    dictionary is in the list exactly when the record it renders is stored
    under its id, the list is as long as the table is large, and no id
    occurs twice.  The world is not changed. *)
Theorem get_lists_exactly_stored clk order_by (w : world) (req : request) :
  order_by_ok order_by →
  method req = GET →
  ∃ l : list message_dict,
    messages clk order_by req w = (Ok (make_response (MessageList l) 200), w) ∧
    (∀ i m, message_to_dict i m ∈ l ↔ table w !! i = Some m) ∧
    length l = size (table w) ∧
    NoDup (j_id <$> l).
Proof.
  intros Hok Hm. eexists. split; [by apply messages_get|].
  split; [intros i m; by apply listed_iff_stored|].
  split; [|by apply listed_ids_nodup].
  destruct (Hok (map_to_list (table w))) as [Hperm _].
  by rewrite length_fmap, Hperm, length_map_to_list.
Qed.

Lemma get_lists_exactly_stored_witness :
  ∃ l : list message_dict,
    messages fine_clock sort_by_created_at get_request (two_messages fine_clock)
      = (Ok (make_response (MessageList l) 200), two_messages fine_clock) ∧
    (∀ i m, message_to_dict i m ∈ l ↔
            table (two_messages fine_clock) !! i = Some m) ∧
    length l = size (table (two_messages fine_clock)) ∧
    NoDup (j_id <$> l).
Proof.
  apply (get_lists_exactly_stored fine_clock sort_by_created_at
           (two_messages fine_clock) get_request).
  - exact sort_by_created_at_ok.
  - reflexivity.
Defined.

(** X16: what POST /messages answers with is what GET /messages then
    lists: after a POST with a text [username] and a non-empty text
    [body], the dictionary of the 201 response, with that body and
    username, is an element of the list of the next GET, which is one
    longer than the table was large. *)
Theorem post_then_get_lists_it clk order_by (w : world) (req get : request)
    (d : gmap string json) (b u : string) :
  order_by_ok order_by →
  method req = POST →
  json_body req = Ok (JObj d) →
  d !! "body" = Some (JStr b) →
  d !! "username" = Some (JStr u) →
  b ≠ "" →
  method get = GET →
  ∃ (dict : message_dict) (l : list message_dict),
    (messages clk order_by req w).1
      = Ok (make_response (OneMessage dict) 201) ∧
    (messages clk order_by get (messages clk order_by req w).2).1
      = Ok (make_response (MessageList l) 200) ∧
    dict ∈ l ∧
    j_body dict = b ∧ j_username dict = u ∧
    length l = S (size (table w)).
Proof.
  intros Hok Hm Hj Hb Hu Hne Hget.
  pose proof (messages_post_text clk order_by w req d b u Hm Hj Hb Hu Hne) as H.
  cbv zeta in H. rewrite H. cbn [fst snd].
  rewrite (messages_get clk order_by _ get Hget). cbn [fst table].
  eexists _, _. split; [reflexivity|]. split; [reflexivity|].
  split; [|split; [done|split; [done|]]].
  - apply (listed_iff_stored order_by _ _ _ Hok), lookup_insert_eq.
  - destruct (Hok (map_to_list
        (<[next_id (table w) :=
             mkMessage b u (clk (reads w)) (clk (S (reads w)))]> (table w))))
      as [Hperm _].
    rewrite length_fmap, Hperm, length_map_to_list.
    apply map_size_insert_None, next_id_fresh.
Qed.

Lemma post_then_get_lists_it_witness :
  ∃ (dict : message_dict) (l : list message_dict),
    (messages fine_clock sort_by_created_at (post hi_alice)
       (one_message fine_clock)).1
      = Ok (make_response (OneMessage dict) 201) ∧
    (messages fine_clock sort_by_created_at get_request
       (messages fine_clock sort_by_created_at (post hi_alice)
          (one_message fine_clock)).2).1
      = Ok (make_response (MessageList l) 200) ∧
    dict ∈ l ∧
    j_body dict = "hi" ∧ j_username dict = "alice" ∧
    length l = S (size (table (one_message fine_clock))).
Proof.
  apply (post_then_get_lists_it fine_clock sort_by_created_at
           (one_message fine_clock) (post hi_alice) get_request
           (list_to_map [("body", JStr "hi"); ("username", JStr "alice")])
           "hi" "alice").
  - exact sort_by_created_at_ok.
  - reflexivity.
  - reflexivity.
  - reflexivity.
  - reflexivity.
  - discriminate.
  - reflexivity.
Defined.

(** X17: creating a message and deleting it again gives the table back:
    after a POST with a text [username] and a non-empty text [body], a
    DELETE of the id the POST answered with is answered 204 and leaves
    the table exactly as it was before the POST. *)
Theorem post_then_delete_restores_table clk order_by (w : world)
    (req del : request) (d : gmap string json) (b u : string) :
  method req = POST →
  json_body req = Ok (JObj d) →
  d !! "body" = Some (JStr b) →
  d !! "username" = Some (JStr u) →
  b ≠ "" →
  method del = DELETE →
  ∃ dict : message_dict,
    (messages clk order_by req w).1
      = Ok (make_response (OneMessage dict) 201) ∧
    (message_by_id clk (j_id dict) del (messages clk order_by req w).2).1
      = Ok (make_response Empty 204) ∧
    table (message_by_id clk (j_id dict) del (messages clk order_by req w).2).2
      = table w.
Proof.
  intros Hm Hj Hb Hu Hne Hdel.
  pose proof (messages_post_text clk order_by w req d b u Hm Hj Hb Hu Hne) as H.
  cbv zeta in H. rewrite H. cbn [fst snd].
  eexists. split; [reflexivity|]. cbn [j_id message_to_dict].
  erewrite delete_found; [|apply lookup_insert_eq|done].
  cbn [fst snd table]. split; [done|].
  apply delete_insert_id, next_id_fresh.
Qed.

Lemma post_then_delete_restores_table_witness :
  ∃ dict : message_dict,
    (messages fine_clock sort_by_created_at (post hi_alice)
       (one_message fine_clock)).1
      = Ok (make_response (OneMessage dict) 201) ∧
    (message_by_id fine_clock (j_id dict) delete_request
       (messages fine_clock sort_by_created_at (post hi_alice)
          (one_message fine_clock)).2).1
      = Ok (make_response Empty 204) ∧
    table (message_by_id fine_clock (j_id dict) delete_request
             (messages fine_clock sort_by_created_at (post hi_alice)
                (one_message fine_clock)).2).2
      = table (one_message fine_clock).
Proof.
  apply (post_then_delete_restores_table fine_clock sort_by_created_at
           (one_message fine_clock) (post hi_alice) delete_request
           (list_to_map [("body", JStr "hi"); ("username", JStr "alice")])
           "hi" "alice").
  - reflexivity.
  - reflexivity.
  - reflexivity.
  - reflexivity.
  - discriminate.
  - reflexivity.
Defined.

(** X18: what PATCH /messages/<id> answers with is what GET /messages
    then lists: after a PATCH of a stored record with a non-empty text
    [body], the dictionary of the 202 response, under the same id and
    with the new body, is the one entry of the next GET's list with that
    id, and the list is as long as the table was large. *)
Theorem patch_then_get_lists_it clk order_by (w : world) (i : Z) (m : Message)
    (req get : request) (d : gmap string json) (s : string) :
  order_by_ok order_by →
  table w !! i = Some m →
  method req = PATCH →
  json_body req = Ok (JObj d) →
  d !! "body" = Some (JStr s) →
  s ≠ "" →
  method get = GET →
  ∃ (dict : message_dict) (l : list message_dict),
    (message_by_id clk i req w).1
      = Ok (make_response (OneMessage dict) 202) ∧
    (messages clk order_by get (message_by_id clk i req w).2).1
      = Ok (make_response (MessageList l) 200) ∧
    dict ∈ l ∧
    j_id dict = i ∧ j_body dict = s ∧
    length l = size (table w) ∧
    ∀ other, other ∈ l → j_id other = i → other = dict.
Proof.
  intros Hok Hi Hm Hj Hb Hne Hget.
  rewrite (patch_text clk w i m req d s Hi Hm Hj Hb Hne). cbn [fst snd].
  rewrite (messages_get clk order_by _ get Hget). cbn [fst].
  assert (table (patched clk i m s w).2 !! i = Some (patched clk i m s w).1
          ∧ body (patched clk i m s w).1 = s
          ∧ size (table (patched clk i m s w).2) = size (table w))
    as (Hstored & Hbody & Hsize).
  { unfold patched. destruct (String.eqb_spec s (body m)) as [->|Hs]; simpl.
    - done.
    - split; [apply lookup_insert_eq|]. split; [done|].
      apply map_size_insert_Some. by eauto. }
  eexists _, _. split; [reflexivity|]. split; [reflexivity|].
  split; [by apply (listed_iff_stored order_by)|].
  split; [done|]. split; [done|]. split.
  - destruct (Hok (map_to_list (table (patched clk i m s w).2))) as [Hperm _].
    by rewrite length_fmap, Hperm, length_map_to_list.
  - intros other Hother Hid.
    destruct (listed_is_stored order_by _ other Hok Hother) as (m' & Hm' & ->).
    rewrite Hid in Hm' |- *. rewrite Hstored in Hm'. by simplify_eq.
Qed.

Lemma patch_then_get_lists_it_witness :
  ∃ (dict : message_dict) (l : list message_dict),
    (message_by_id fine_clock 1 (patch hello) (two_messages fine_clock)).1
      = Ok (make_response (OneMessage dict) 202) ∧
    (messages fine_clock sort_by_created_at get_request
       (message_by_id fine_clock 1 (patch hello) (two_messages fine_clock)).2).1
      = Ok (make_response (MessageList l) 200) ∧
    dict ∈ l ∧
    j_id dict = 1 ∧ j_body dict = "hello" ∧
    length l = size (table (two_messages fine_clock)) ∧
    ∀ other, other ∈ l → j_id other = 1 → other = dict.
Proof.
  apply (patch_then_get_lists_it fine_clock sort_by_created_at
           (two_messages fine_clock) 1 (mkMessage "hi" "alice" 0 1)
           (patch hello) get_request
           (list_to_map [("body", JStr "hello")]) "hello").
  - exact sort_by_created_at_ok.
  - reflexivity.
  - reflexivity.
  - reflexivity.
  - reflexivity.
  - discriminate.
  - reflexivity.
Defined.

(** ** [Message.__repr__] *)

Lemma length_append (a b : string) :
  String.length (a +:+ b) = (String.length a + String.length b)%nat.
Proof. induction a as [|c a IH]; simpl; [done|by rewrite IH]. Qed.

Lemma length_slice (n : nat) (s : string) :
  String.length (substring 0 n s) = Nat.min n (String.length s).
Proof.
  revert s. induction n as [|n IH]; intros [|c s]; simpl; try done.
  by rewrite IH.
Qed.

Lemma slice_prefix (n : nat) (s : string) :
  String.prefix (substring 0 n s) s = true.
Proof.
  revert s. induction n as [|n IH]; intros [|c s]; simpl; try done.
  destruct (Ascii.ascii_dec c c); [apply IH|congruence].
Qed.

Lemma slice_all (n : nat) (s : string) :
  (String.length s ≤ n)%nat → substring 0 n s = s.
Proof.
  revert s. induction n as [|n IH]; intros [|c s]; simpl; try done; try lia.
  intros Hlen. rewrite IH; [done|lia].
Qed.

(** X19: the text [__repr__] gives for a message shows its id, a prefix
    of its body of at most 30 characters followed by three dots, and its
    username; the body is shown whole when it has at most 30 characters,
    and the dots follow it all the same.  The length of the text does not
    grow with a body longer than that. *)
Theorem repr_shows_first_30 (i : Z) (m : Message) :
  ∃ excerpt : string,
    __repr__ i m =
      "<Message " +:+ pretty i +:+ ": " +:+ dquote +:+ excerpt +:+ "..." +:+
      dquote +:+ " by " +:+ username m +:+ ">" ∧
    String.prefix excerpt (body m) = true ∧
    String.length excerpt = Nat.min 30 (String.length (body m)) ∧
    ((String.length (body m) ≤ 30)%nat → excerpt = body m) ∧
    String.length (__repr__ i m)
      = (21 + String.length (pretty i) + Nat.min 30 (String.length (body m))
         + String.length (username m))%nat.
Proof.
  exists (substring 0 30 (body m)).
  split; [reflexivity|]. split; [apply slice_prefix|].
  split; [apply length_slice|]. split; [apply slice_all|].
  unfold __repr__. rewrite !length_append, length_slice. simpl. lia.
Qed.
